(** * generate_app_icons.py: the icon generator, embedded and verified

    The script reads one source image, writes thirteen resized, flattened
    PNG icons into an asset-catalog directory and then writes the catalog
    manifest [Contents.json].  This development embeds the script as a
    program of a small state-and-exception monad over a model of the
    filesystem and of standard output, with the imaging library (PIL) as an
    interface, and proves the properties of the specification about it. *)

From Stdlib Require Import ZArith Ascii String List Strings.Byte DecimalString.
From stdpp Require Import gmap strings list fin_maps.

Open Scope string_scope.
Set Warnings "-clear-no-such-hyp".

(** ** Strings and paths *)

Module Str.

(** The double quote, built from its code so that no literal needs one. *)
Definition dq : string := String (ascii_of_nat 34) EmptyString.

(** The line feed. *)
Definition nl : string := String (ascii_of_nat 10) EmptyString.

Fixpoint endswith_char (s : string) (c : ascii) : bool :=
  match s with
  | EmptyString => false
  | String a EmptyString => Ascii.eqb a c
  | String _ rest => endswith_char rest c
  end.

Definition startswith_char (s : string) (c : ascii) : bool :=
  match s with
  | EmptyString => false
  | String a _ => Ascii.eqb a c
  end.

(** [str(n)] for a natural number. *)
Definition of_nat (n : nat) : string :=
  NilEmpty.string_of_uint (Nat.to_uint n).

(** [str(z)] for an integer. *)
Definition of_Z (z : Z) : string :=
  NilEmpty.string_of_int (Z.to_int z).

End Str.

Module OsPath.

Definition sep : ascii := "/"%char.

(** [os.path.join(a, b)] of posixpath, for two arguments. *)
Definition join (a b : string) : string :=
  if Str.startswith_char b sep then b
  else if (String.eqb a "" || Str.endswith_char a sep)%bool then a ++ b
  else a ++ String sep b.

(** The prefixes of [p] that end just before a separator following at
    least one character: the directories above [p], outermost first. *)
Fixpoint parents_from (done : string) (rest : string) : list string :=
  match rest with
  | EmptyString => []
  | String c rest' =>
      let here := done ++ String c EmptyString in
      if Ascii.eqb c sep
      then (if String.eqb done "" then [] else [done]) ++ parents_from here rest'
      else parents_from here rest'
  end.

Definition parents (p : string) : list string := parents_from "" p.

(** [os.path.dirname(p)]: everything before the last separator (the root
    stays the root). *)
Fixpoint dirname_from (seen : string) (best : string) (rest : string) : string :=
  match rest with
  | EmptyString => best
  | String c rest' =>
      let seen' := seen ++ String c EmptyString in
      if Ascii.eqb c sep
      then dirname_from seen' (if String.eqb seen "" then seen' else seen) rest'
      else dirname_from seen' best rest'
  end.

Definition dirname (p : string) : string := dirname_from "" "" p.

End OsPath.

(** ** The constants of the script *)

(** Line 9. *)
Definition source_path : string :=
  "/Users/aadi/Desktop/FlexaSwiftUI/ChatGPT Image Sep 1, 2025, 11_37_08 PM.png".

(** Line 12. *)
Definition dest_dir : string :=
  "/Users/aadi/Desktop/FlexaSwiftUI/FlexaSwiftUI/Assets.xcassets/AppIcon.appiconset".

(** Lines 15-29: the icon table, pairs of edge length and file name. *)
Definition icon_sizes : list (nat * string) :=
  [ (20, "Icon-20.png");
    (29, "Icon-29.png");
    (40, "Icon-40.png");
    (58, "Icon-58.png");
    (60, "Icon-60.png");
    (76, "Icon-76.png");
    (80, "Icon-80.png");
    (87, "Icon-87.png");
    (120, "Icon-120.png");
    (152, "Icon-152.png");
    (167, "Icon-167.png");
    (180, "Icon-180.png");
    (1024, "Icon-1024.png") ].

(** ** JSON values and [json.dump(obj, f, indent=2)] *)

(** The fragment of Python values that the manifest uses.  A [dict] keeps
    its insertion order, which the encoder follows, so it is a list of
    key-value pairs. *)
#[warnings="-register-all"]
Inductive json : Type :=
| JStr (s : string)
| JInt (z : Z)
| JList (items : list json)
| JDict (items : list (string * json)).

Module Json.

Definition hex_digit (n : N) : ascii :=
  ascii_of_N (if (n <? 10)%N then 48 + n else 87 + n).

(** [encode_basestring_ascii] on one character: the quote and the
    backslash are escaped, the printable ASCII range [' '..'~'] is kept,
    and everything else becomes a named escape or [\u00xx]. *)
Definition escape_char (c : ascii) : string :=
  let n := N_of_ascii c in
  if (n =? 34)%N then "\" ++ Str.dq
  else if (n =? 92)%N then "\\"
  else if (n =? 8)%N then "\b"
  else if (n =? 12)%N then "\f"
  else if (n =? 10)%N then "\n"
  else if (n =? 13)%N then "\r"
  else if (n =? 9)%N then "\t"
  else if ((32 <=? n) && (n <=? 126))%N then String c EmptyString
  else "\u00" ++ String (hex_digit (n / 16)) (String (hex_digit (n mod 16)) EmptyString).

Fixpoint escape (s : string) : string :=
  match s with
  | EmptyString => EmptyString
  | String c rest => escape_char c ++ escape rest
  end.

Definition encode_basestring_ascii (s : string) : string :=
  Str.dq ++ escape s ++ Str.dq.

Fixpoint spaces (n : nat) : string :=
  match n with
  | O => EmptyString
  | S k => String " " (spaces k)
  end.

(** ['\n' + ' ' * (indent * level)] *)
Definition newline_indent (indent level : nat) : string :=
  Str.nl ++ spaces (indent * level).

Fixpoint join_with (separator : string) (chunks : list string) : string :=
  match chunks with
  | [] => EmptyString
  | [c] => c
  | c :: rest => c ++ separator ++ join_with separator rest
  end.

(** [_iterencode] of the standard encoder with an indent: the item
    separator is [","] followed by the newline and indentation, the key
    separator is [": "], and empty containers print closed. *)
Fixpoint iterencode (indent level : nat) (o : json) : string :=
  match o with
  | JStr s => encode_basestring_ascii s
  | JInt z => Str.of_Z z
  | JList [] => "[]"
  | JList items =>
      "[" ++ newline_indent indent (S level)
      ++ join_with ("," ++ newline_indent indent (S level))
           (List.map (iterencode indent (S level)) items)
      ++ newline_indent indent level ++ "]"
  | JDict [] => "{}"
  | JDict items =>
      "{" ++ newline_indent indent (S level)
      ++ join_with ("," ++ newline_indent indent (S level))
           (List.map (fun kv =>
                        match kv with
                        | (k, v) => encode_basestring_ascii k ++ ": "
                                    ++ iterencode indent (S level) v
                        end) items)
      ++ newline_indent indent level ++ "}"
  end.

Definition dumps (indent : nat) (o : json) : string := iterencode indent 0 o.

(** Value of a key of a [dict]. *)
Fixpoint assoc (k : string) (items : list (string * json)) : option json :=
  match items with
  | [] => None
  | (k', v) :: rest => if String.eqb k k' then Some v else assoc k rest
  end.

Definition get (k : string) (o : json) : option json :=
  match o with
  | JDict items => assoc k items
  | _ => None
  end.

Definition keys (o : json) : list string :=
  match o with
  | JDict items => List.map fst items
  | _ => []
  end.

(** A reader for the texts the encoder writes: objects, arrays, strings
    with their escapes and integers, with any white space between tokens.
    It serves to state that a text is JSON for a given value. *)
Definition is_ws (c : ascii) : bool :=
  let n := N_of_ascii c in
  ((n =? 32) || (n =? 10) || (n =? 13) || (n =? 9))%N%bool.

Fixpoint skip_ws (s : string) : string :=
  match s with
  | String c rest => if is_ws c then skip_ws rest else s
  | EmptyString => s
  end.

Definition digit_value (c : ascii) : option Z :=
  let n := N_of_ascii c in
  if ((48 <=? n) && (n <=? 57))%N%bool then Some (Z.of_N (n - 48)) else None.

Definition hex_value (c : ascii) : option N :=
  let n := N_of_ascii c in
  if ((48 <=? n) && (n <=? 57))%N%bool then Some (n - 48)%N
  else if ((97 <=? n) && (n <=? 102))%N%bool then Some (n - 87)%N
  else if ((65 <=? n) && (n <=? 70))%N%bool then Some (n - 55)%N
  else None.

Fixpoint read_digits (acc : Z) (s : string) : Z * string :=
  match s with
  | String c rest =>
      match digit_value c with
      | Some d => read_digits (10 * acc + d)%Z rest
      | None => (acc, s)
      end
  | EmptyString => (acc, s)
  end.

Definition unescape (c : ascii) : option ascii :=
  let n := N_of_ascii c in
  if ((n =? 34) || (n =? 92) || (n =? 47))%N%bool then Some c
  else if (n =? 98)%N then Some (ascii_of_N 8)
  else if (n =? 102)%N then Some (ascii_of_N 12)
  else if (n =? 110)%N then Some (ascii_of_N 10)
  else if (n =? 114)%N then Some (ascii_of_N 13)
  else if (n =? 116)%N then Some (ascii_of_N 9)
  else None.

(** The characters of a string up to its closing quote, and what follows
    the quote. *)
Fixpoint read_string (s : string) : option (string * string) :=
  match s with
  | EmptyString => None
  | String c rest =>
      if (N_of_ascii c =? 34)%N then Some (EmptyString, rest)
      else if (N_of_ascii c =? 92)%N then
        match rest with
        | String e rest' =>
            if (N_of_ascii e =? 117)%N then
              match rest' with
              | String h1 (String h2 (String h3 (String h4 rest''))) =>
                  match hex_value h1, hex_value h2, hex_value h3, hex_value h4,
                        read_string rest'' with
                  | Some 0%N, Some 0%N, Some a, Some b, Some (str, after) =>
                      Some (String (ascii_of_N (16 * a + b)) str, after)
                  | _, _, _, _, _ => None
                  end
              | _ => None
              end
            else
              match unescape e, read_string rest' with
              | Some c', Some (str, after) => Some (String c' str, after)
              | _, _ => None
              end
        | EmptyString => None
        end
      else
        match read_string rest with
        | Some (str, after) => Some (String c str, after)
        | None => None
        end
  end.

Fixpoint read_value (fuel : nat) (s : string) : option (json * string) :=
  match fuel with
  | O => None
  | S fuel' =>
      match skip_ws s with
      | EmptyString => None
      | String c rest =>
          let n := N_of_ascii c in
          if (n =? 34)%N then
            match read_string rest with
            | Some (str, after) => Some (JStr str, after)
            | None => None
            end
          else if (n =? 91)%N then
            match skip_ws rest with
            | String c' rest' =>
                if (N_of_ascii c' =? 93)%N then Some (JList [], rest')
                else match read_items fuel' rest with
                     | Some (items, after) => Some (JList items, after)
                     | None => None
                     end
            | EmptyString => None
            end
          else if (n =? 123)%N then
            match skip_ws rest with
            | String c' rest' =>
                if (N_of_ascii c' =? 125)%N then Some (JDict [], rest')
                else match read_members fuel' rest with
                     | Some (items, after) => Some (JDict items, after)
                     | None => None
                     end
            | EmptyString => None
            end
          else if (n =? 45)%N then
            match rest with
            | String d _ =>
                match digit_value d with
                | Some _ => let '(z, after) := read_digits 0 rest in Some (JInt (- z), after)
                | None => None
                end
            | EmptyString => None
            end
          else
            match digit_value c with
            | Some _ => let '(z, after) := read_digits 0 (String c rest) in
                        Some (JInt z, after)
            | None => None
            end
      end
  end
with read_items (fuel : nat) (s : string) : option (list json * string) :=
  match fuel with
  | O => None
  | S fuel' =>
      match read_value fuel' s with
      | Some (v, after) =>
          match skip_ws after with
          | String c rest =>
              if (N_of_ascii c =? 44)%N then
                match read_items fuel' rest with
                | Some (vs, after') => Some (v :: vs, after')
                | None => None
                end
              else if (N_of_ascii c =? 93)%N then Some ([v], rest)
              else None
          | EmptyString => None
          end
      | None => None
      end
  end
with read_members (fuel : nat) (s : string) : option (list (string * json) * string) :=
  match fuel with
  | O => None
  | S fuel' =>
      match skip_ws s with
      | String q rest =>
          if (N_of_ascii q =? 34)%N then
            match read_string rest with
            | Some (k, after) =>
                match skip_ws after with
                | String c rest' =>
                    if (N_of_ascii c =? 58)%N then
                      match read_value fuel' rest' with
                      | Some (v, after') =>
                          match skip_ws after' with
                          | String c' rest'' =>
                              if (N_of_ascii c' =? 44)%N then
                                match read_members fuel' rest'' with
                                | Some (kvs, after'') => Some ((k, v) :: kvs, after'')
                                | None => None
                                end
                              else if (N_of_ascii c' =? 125)%N then Some ([(k, v)], rest'')
                              else None
                          | EmptyString => None
                          end
                      | None => None
                      end
                    else None
                | EmptyString => None
                end
            | None => None
            end
          else None
      | EmptyString => None
      end
  end.

(** The value a text stands for, if it is JSON of this fragment and
    nothing but white space follows the value. *)
Definition loads (s : string) : option json :=
  match read_value (S (String.length s)) s with
  | Some (v, after) =>
      match skip_ws after with
      | EmptyString => Some v
      | String _ _ => None
      end
  | None => None
  end.

End Json.

(** Lines 62-85: the manifest.  Each image entry is the dict literal of the
    source, its four keys in the order written there. *)
Definition image_entry (filename idiom scale size : string) : json :=
  JDict [ ("filename", JStr filename); ("idiom", JStr idiom);
          ("scale", JStr scale); ("size", JStr size) ].

Definition contents_json : json :=
  JDict
    [ ("images",
       JList
         [ image_entry "Icon-40.png" "ipad" "1x" "40x40";
           image_entry "Icon-80.png" "ipad" "2x" "40x40";
           image_entry "Icon-60.png" "iphone" "2x" "30x30";
           image_entry "Icon-120.png" "iphone" "2x" "60x60";
           image_entry "Icon-180.png" "iphone" "3x" "60x60";
           image_entry "Icon-58.png" "iphone" "2x" "29x29";
           image_entry "Icon-87.png" "iphone" "3x" "29x29";
           image_entry "Icon-80.png" "iphone" "2x" "40x40";
           image_entry "Icon-120.png" "iphone" "3x" "40x40";
           image_entry "Icon-20.png" "iphone" "1x" "20x20";
           image_entry "Icon-40.png" "iphone" "2x" "20x20";
           image_entry "Icon-60.png" "iphone" "3x" "20x20";
           image_entry "Icon-76.png" "ipad" "1x" "76x76";
           image_entry "Icon-152.png" "ipad" "2x" "76x76";
           image_entry "Icon-167.png" "ipad" "2x" "83.5x83.5";
           image_entry "Icon-1024.png" "ios-marketing" "1x" "1024x1024" ]);
      ("info", JDict [ ("author", JStr "xcode"); ("version", JInt 1) ]) ].

(** The [filename] values of the manifest's image entries, in order. *)
Definition manifest_filenames (o : json) : list string :=
  match Json.get "images" o with
  | Some (JList entries) =>
      flat_map (fun e => match Json.get "filename" e with
                         | Some (JStr f) => [f]
                         | _ => []
                         end) entries
  | _ => []
  end.

(** ** Exceptions and outcomes *)

(** Every failure of the run is an instance of Python's [Exception]; the
    script only ever looks at its text, [str(e)]. *)
Inductive exn : Type := Exception (msg : string).

Definition exn_str (e : exn) : string :=
  match e with Exception msg => msg end.

Inductive outcome (A : Type) : Type :=
| Ok (a : A)
| Raise (e : exn).

Arguments Ok {A} a.
Arguments Raise {A} e.

Definition is_ok {A} (o : outcome A) : bool :=
  match o with Ok _ => true | Raise _ => false end.

(** ** The filesystem and standard output *)

(** Directories, regular files with their bytes, the paths the process
    may not read and the ones it may not create or write, and the journal
    of the writes performed, oldest first.  A write stores the whole file
    or raises and leaves the filesystem as it was. *)
Record FS : Type := mkFS {
  fs_dirs : gset string;
  fs_files : gmap string (list byte);
  fs_noread : gset string;
  fs_nowrite : gset string;
  fs_journal : list (string * list byte)
}.

Record World : Type := mkWorld {
  w_fs : FS;
  w_stdout : list string
}.

Module Fs.

Definition is_dir (fs : FS) (p : string) : bool := bool_decide (p ∈ fs_dirs fs).
Definition is_file (fs : FS) (p : string) : bool := bool_decide (is_Some (fs_files fs !! p)).

Definition errno (code what p : string) : exn :=
  Exception ("[Errno " ++ code ++ "] " ++ what ++ ": '" ++ p ++ "'").

(** One [mkdir] of [os.makedirs(..., exist_ok=True)]: an existing
    directory is accepted, anything else in the way or a refusal raises. *)
Definition mkdir_exist_ok (p : string) (fs : FS) : outcome FS :=
  if is_dir fs p then Ok fs
  else if is_file fs p then Raise (errno "17" "File exists" p)
  else if bool_decide (p ∈ fs_nowrite fs) then Raise (errno "13" "Permission denied" p)
  else Ok (mkFS ({[ p ]} ∪ fs_dirs fs) (fs_files fs) (fs_noread fs) (fs_nowrite fs)
             (fs_journal fs)).

(** Create the missing directories outermost first; the ones created
    before a failure stay. *)
Fixpoint mkdir_all (ps : list string) (fs : FS) : outcome FS * FS :=
  match ps with
  | [] => (Ok fs, fs)
  | p :: rest =>
      match mkdir_exist_ok p fs with
      | Ok fs' => mkdir_all rest fs'
      | Raise e => (Raise e, fs)
      end
  end.

Definition makedirs (p : string) (fs : FS) : outcome FS * FS :=
  mkdir_all (OsPath.parents p ++ [p]) fs.

(** [open(p, 'rb').read()] *)
Definition read (p : string) (fs : FS) : outcome (list byte) :=
  if is_dir fs p then Raise (errno "21" "Is a directory" p)
  else match fs_files fs !! p with
       | None => Raise (errno "2" "No such file or directory" p)
       | Some data =>
           if bool_decide (p ∈ fs_noread fs)
           then Raise (errno "13" "Permission denied" p)
           else Ok data
       end.

(** [open(p, 'w')], the writes and the close, as one step. *)
Definition write (p : string) (data : list byte) (fs : FS) : outcome FS :=
  if is_dir fs p then Raise (errno "21" "Is a directory" p)
  else if negb (is_dir fs (OsPath.dirname p))
       then Raise (errno "2" "No such file or directory" p)
  else if bool_decide (p ∈ fs_nowrite fs) then Raise (errno "13" "Permission denied" p)
  else Ok (mkFS (fs_dirs fs) (<[ p := data ]> (fs_files fs)) (fs_noread fs) (fs_nowrite fs)
             (fs_journal fs ++ [(p, data)])).

End Fs.

(** ** The monad of the script: state of the world, and exceptions *)

Definition Py (A : Type) : Type := World -> outcome A * World.

Definition ret {A} (a : A) : Py A := fun w => (Ok a, w).

Definition raise {A} (e : exn) : Py A := fun w => (Raise e, w).

Definition bind {A B} (m : Py A) (k : A -> Py B) : Py B :=
  fun w =>
    match m w with
    | (Ok a, w') => k a w'
    | (Raise e, w') => (Raise e, w')
    end.

(** [try: body except Exception as e: handler] *)
Definition try_except {A} (body : Py A) (handler : exn -> Py A) : Py A :=
  fun w =>
    match body w with
    | (Ok a, w') => (Ok a, w')
    | (Raise e, w') => handler e w'
    end.

Definition lift {A} (o : outcome A) : Py A := fun w => (o, w).

Declare Scope py_scope.
Delimit Scope py_scope with py.
Notation "x <- m ;; k" := (bind m (fun x => k))
  (at level 100, m at next level, right associativity) : py_scope.
Notation "m ;;; k" := (bind m (fun _ => k))
  (at level 100, right associativity) : py_scope.

(** [for x in xs: body] *)
Fixpoint for_each {A} (xs : list A) (body : A -> Py unit) : Py unit :=
  match xs with
  | [] => ret tt
  | x :: rest => bind (body x) (fun _ => for_each rest body)
  end.

Definition print (line : string) : Py unit :=
  fun w => (Ok tt, mkWorld (w_fs w) (w_stdout w ++ [line])).

Definition os_makedirs (p : string) : Py unit :=
  fun w =>
    match Fs.makedirs p (w_fs w) with
    | (Ok _, fs') => (Ok tt, mkWorld fs' (w_stdout w))
    | (Raise e, fs') => (Raise e, mkWorld fs' (w_stdout w))
    end.

Definition read_file (p : string) : Py (list byte) :=
  fun w => (Fs.read p (w_fs w), w).

Definition write_file (p : string) (data : list byte) : Py unit :=
  fun w =>
    match Fs.write p data (w_fs w) with
    | Ok fs' => (Ok tt, mkWorld fs' (w_stdout w))
    | Raise e => (Raise e, w)
    end.

(** ** Images *)

(** A pixel is the list of its band values, an image its mode string, its
    size (width, height) and its rows of pixels, top row first. *)
Definition pixel : Type := list Z.

Record Image : Type := mkImage {
  im_mode : string;
  im_size : nat * nat;
  im_rows : list (list pixel)
}.

Definition pixel_at (im : Image) (x y : nat) : option pixel :=
  match nth_error (im_rows im) y with
  | Some row => nth_error row x
  | None => None
  end.

(** [str] of a size tuple: ["(w, h)"]. *)
Definition size_str (sz : nat * nat) : string :=
  "(" ++ Str.of_nat (fst sz) ++ ", " ++ Str.of_nat (snd sz) ++ ")".

Definition size_eqb (a b : nat * nat) : bool :=
  (Nat.eqb (fst a) (fst b) && Nat.eqb (snd a) (snd b))%bool.

Definition white : pixel := [255; 255; 255]%Z.

(** The parts of the imaging library whose result depends on codecs and on
    the resampling filter.  Each may raise. *)
Class Imaging : Type := {
  (** identify and decode the bytes of an image file *)
  decode : list byte -> outcome Image;
  (** [im.convert(mode)] *)
  convert : Image -> string -> outcome Image;
  (** [im.resize(size, Image.Resampling.LANCZOS)] *)
  resize_lanczos : Image -> nat * nat -> outcome Image;
  (** one band of a masked paste: [blend mask under over] *)
  blend : Z -> Z -> Z -> Z;
  (** the PNG encoder *)
  png_encode : Image -> outcome (list byte)
}.

(** What the library documents of them: [convert] yields the mode asked
    for, [resize] the size asked for in the mode it was given, and a paste
    keeps the pixel under a mask of 0 and copies the pasted one under a mask
    of 255. *)
Class ImagingLaws (I : Imaging) : Prop := {
  convert_mode : forall im m im', convert im m = Ok im' -> im_mode im' = m;
  resize_size : forall im sz im', resize_lanczos im sz = Ok im' -> im_size im' = sz;
  resize_mode : forall im sz im', resize_lanczos im sz = Ok im' -> im_mode im' = im_mode im;
  blend_0 : forall under over, blend 0 under over = under;
  blend_255 : forall under over, blend 255 under over = over
}.

Module PIL.

(** [Image.getbands]: the band names of a mode. *)
Definition getbands (mode : string) : list string :=
  if String.eqb mode "RGBA" then ["R"; "G"; "B"; "A"]
  else if String.eqb mode "RGB" then ["R"; "G"; "B"]
  else if String.eqb mode "LA" then ["L"; "A"]
  else if String.eqb mode "PA" then ["P"; "A"]
  else if String.eqb mode "CMYK" then ["C"; "M"; "Y"; "K"]
  else if String.eqb mode "YCbCr" then ["Y"; "Cb"; "Cr"]
  else if String.eqb mode "LAB" then ["L"; "A"; "B"]
  else if String.eqb mode "HSV" then ["H"; "S"; "V"]
  else [mode].

(** [Image.new(mode, size, color)] *)
Definition new (mode : string) (size : nat * nat) (color : pixel) : Image :=
  mkImage mode size (repeat (repeat color (fst size)) (snd size)).

(** Band [i] of an image, as an image of mode ["L"]. *)
Definition band (im : Image) (i : nat) : Image :=
  mkImage "L" (im_size im)
    (List.map (List.map (fun px => [nth i px 0%Z])) (im_rows im)).

(** [im.split()] *)
Definition split (im : Image) : list Image :=
  List.map (band im) (seq 0 (length (getbands (im_mode im)))).

(** [t[-1]] of a tuple. *)
Definition last_item {A} (t : list A) : outcome A :=
  match List.last (List.map Some t) None with
  | Some a => Ok a
  | None => Raise (Exception "tuple index out of range")
  end.

(** Combine [under] with what lies [over] it position by position; where
    [over] ends, [under] stays: a paste at the origin is clipped to the
    image pasted into. *)
Fixpoint overlay {A B} (f : A -> B -> A) (under : list A) (over : list B) : list A :=
  match under, over with
  | u :: us, o :: os => f u o :: overlay f us os
  | us, [] => us
  | [], _ => []
  end.

Section Paste.
Context {I : Imaging}.

Definition paste_pixel (under : pixel) (over_mask : pixel * pixel) : pixel :=
  let a := hd 0%Z (snd over_mask) in
  overlay (fun u o => blend a u o) under (fst over_mask).

Definition paste_row (under : list pixel) (over_mask : list pixel * list pixel)
  : list pixel :=
  overlay paste_pixel under (combine (fst over_mask) (snd over_mask)).

(** [under.paste(over, mask=mask)]: the box is the origin and the size
    of [over], which the mask must have too. *)
Definition paste (under over mask : Image) : outcome Image :=
  if size_eqb (im_size over) (im_size mask)
  then Ok (mkImage (im_mode under) (im_size under)
             (overlay paste_row (im_rows under)
                (combine (im_rows over) (im_rows mask))))
  else Raise (Exception "images do not match").

End Paste.

End PIL.

(** ** The script *)

Section Script.
Context {I : Imaging}.
Open Scope py_scope.

(** [Image.open(path)] *)
Definition Image_open (path : string) : Py Image :=
  data <- read_file path ;;
  lift (decode data).

(** [im.save(path, "PNG", quality=100)] *)
Definition Image_save (im : Image) (path : string) : Py unit :=
  data <- lift (png_encode im) ;;
  write_file path data.

(** Lines 51-54: a white background, the image pasted onto it through
    its last band. *)
Definition composite (resized : Image) (size : nat) : outcome Image :=
  let background := PIL.new "RGB" (size, size) white in
  match PIL.last_item (PIL.split resized) with
  | Ok mask => PIL.paste background resized mask
  | Raise e => Raise e
  end.

(** Lines 50-54: flatten the transparency if the mode has it. *)
Definition flatten (resized : Image) (size : nat) : outcome Image :=
  if String.eqb (im_mode resized) "RGBA" then composite resized size
  else Ok resized.

(** Lines 44-59: the body of the loop. *)
Definition generate_icon (source_img : Image) (spec : nat * string) : Py unit :=
  let '(size, filename) := spec in
  print ("🖼️  Generating " ++ Str.of_nat size ++ "x" ++ Str.of_nat size
         ++ " -> " ++ filename) ;;;
  resized <- lift (resize_lanczos source_img (size, size)) ;;
  resized <- lift (flatten resized size) ;;
  let output_path := OsPath.join dest_dir filename in
  Image_save resized output_path ;;;
  print ("   ✅ Saved: " ++ output_path).

(** Line 87. *)
Definition contents_path : string := OsPath.join dest_dir "Contents.json".

(** Line 89: what [json.dump(contents_json, f, indent=2)] writes. *)
Definition contents_text : string := Json.dumps 2 contents_json.

(** Lines 38-92: the body of the [try]. *)
Definition generate_body : Py unit :=
  source_img <- Image_open source_path ;;
  source_img <- lift (convert source_img "RGBA") ;;
  print ("✅ Source image loaded: " ++ size_str (im_size source_img)) ;;;
  for_each icon_sizes (generate_icon source_img) ;;;
  write_file contents_path (list_byte_of_string contents_text) ;;;
  print ("📄 Generated Contents.json: " ++ contents_path) ;;;
  print "🎉 App icon generation complete!".

(** Lines 7-98.  The directory is made and the first line printed before
    the [try] is entered; the handler prints the error and returns
    [False]; falling out of the [try] returns [True]. *)
Definition generate_app_icons : Py bool :=
  os_makedirs dest_dir ;;;
  print ("📱 Loading source image: " ++ source_path) ;;;
  try_except
    (generate_body ;;; ret true)
    (fun e => print ("❌ Error: " ++ exn_str e) ;;; ret false).

End Script.

(** ** Steps of the run, for the statements about failures *)

(** The world on entry to the [try]: the directory made, the first line
    printed. *)
Definition try_entry (w : World) : World :=
  snd (print ("📱 Loading source image: " ++ source_path) (snd (os_makedirs dest_dir w))).





(** ** The run seen from the filesystem

    What the script does to the filesystem, without standard output: the
    functions below are shown to agree with the script and carry the proofs
    about files. *)

Definition icon_path (filename : string) : string := OsPath.join dest_dir filename.

Definition icon_filenames : list string := List.map snd icon_sizes.

Definition icon_paths : list string := List.map icon_path icon_filenames.

(** The fourteen files a run may write, in the order it writes them. *)
Definition output_paths : list string := (icon_paths ++ [contents_path])%list.

Definition output_names : list string := (icon_filenames ++ ["Contents.json"])%list.

Definition contents_bytes : list byte := list_byte_of_string contents_text.

(** Replaying a journal on the files. *)
Definition apply_writes (writes : list (string * list byte))
  (files : gmap string (list byte)) : gmap string (list byte) :=
  fold_left (fun m pd => <[ fst pd := snd pd ]> m) writes files.

(** The last write to [p] in a journal. *)
Fixpoint last_write (p : string) (writes : list (string * list byte))
  : option (list byte) :=
  match writes with
  | [] => None
  | (q, d) :: rest =>
      match last_write p rest with
      | Some d' => Some d'
      | None => if String.eqb p q then Some d else None
      end
  end.

(** A file name proper: no separator in it. *)
Fixpoint has_sep (s : string) : bool :=
  match s with
  | EmptyString => false
  | String c rest => (Ascii.eqb c OsPath.sep || has_sep rest)%bool
  end.

Section Summary.
Context {I : Imaging}.

(** The bytes of the icon of a size: resize, flatten, encode. *)
Definition render (source_img : Image) (size : nat) : outcome (list byte) :=
  match resize_lanczos source_img (size, size) with
  | Ok resized =>
      match flatten resized size with
      | Ok flat => png_encode flat
      | Raise e => Raise e
      end
  | Raise e => Raise e
  end.

(** The loop over a table. *)
Fixpoint icons_fs (source_img : Image) (table : list (nat * string)) (fs : FS)
  : outcome unit * FS :=
  match table with
  | [] => (Ok tt, fs)
  | (size, filename) :: rest =>
      match render source_img size with
      | Ok data =>
          match Fs.write (icon_path filename) data fs with
          | Ok fs' => icons_fs source_img rest fs'
          | Raise e => (Raise e, fs)
          end
      | Raise e => (Raise e, fs)
      end
  end.

(** The source image as the loop receives it. *)
Definition load_fs (fs : FS) : outcome Image :=
  match Fs.read source_path fs with
  | Ok data =>
      match decode data with
      | Ok img => convert img "RGBA"
      | Raise e => Raise e
      end
  | Raise e => Raise e
  end.

(** The body of the [try]. *)
Definition body_fs (fs : FS) : outcome unit * FS :=
  match load_fs fs with
  | Ok source_img =>
      match icons_fs source_img icon_sizes fs with
      | (Ok _, fs') =>
          match Fs.write contents_path contents_bytes fs' with
          | Ok fs'' => (Ok tt, fs'')
          | Raise e => (Raise e, fs')
          end
      | (Raise e, fs') => (Raise e, fs')
      end
  | Raise e => (Raise e, fs)
  end.

(** The whole function. *)
Definition run_fs (fs : FS) : outcome bool * FS :=
  match Fs.makedirs dest_dir fs with
  | (Ok _, fs1) =>
      match body_fs fs1 with
      | (Ok _, fs2) => (Ok true, fs2)
      | (Raise _, fs2) => (Ok false, fs2)
      end
  | (Raise e, fs1) => (Raise e, fs1)
  end.

End Summary.

(** [fs'] is [fs] after the writes [ws] and nothing else. *)
Record extends (fs fs' : FS) (ws : list (string * list byte)) : Prop := {
  ext_dirs : fs_dirs fs' = fs_dirs fs;
  ext_noread : fs_noread fs' = fs_noread fs;
  ext_nowrite : fs_nowrite fs' = fs_nowrite fs;
  ext_journal : fs_journal fs' = (fs_journal fs ++ ws)%list;
  ext_files : fs_files fs' = apply_writes ws (fs_files fs)
}.

(** Two filesystems that allow the same writes. *)
Definition same_perm (fs1 fs2 : FS) : Prop :=
  fs_dirs fs1 = fs_dirs fs2 /\ fs_nowrite fs1 = fs_nowrite fs2.

(** The writes [ws] are the icons of the table entries [done], one each,
    in order. *)
Definition written {I : Imaging} (source_img : Image)
  (done : list (nat * string)) (ws : list (string * list byte)) : Prop :=
  Forall2 (fun spec pd => fst pd = icon_path (snd spec)
                          /\ render source_img (fst spec) = Ok (snd pd)) done ws.

(** The step of the loop on a table entry cannot succeed on [fs]: the icon
    cannot be made or the file cannot be written. *)
Definition icon_fails {I : Imaging} (source_img : Image) (spec : nat * string)
  (fs : FS) : Prop :=
  match render source_img (fst spec) with
  | Ok data => is_ok (Fs.write (icon_path (snd spec)) data fs) = false
  | Raise _ => True
  end.

(** The writes of the body of the [try] from [fs], [ok] telling whether it
    ran to its end: the icons of the table entries before the first one
    that fails, then the manifest if and only if the body succeeded, which
    takes the whole table. *)
Definition body_writes {I : Imaging} (fs : FS) (ok : bool)
  (ws : list (string * list byte)) : Prop :=
  match load_fs fs with
  | Raise _ => ok = false /\ ws = []
  | Ok source_img =>
      exists k icons,
        k <= length icon_sizes
        /\ written source_img (firstn k icon_sizes) icons
        /\ (ok = true -> k = length icon_sizes)
        /\ (k < length icon_sizes ->
            exists spec, icon_sizes !! k = Some spec /\ icon_fails source_img spec fs)
        /\ ws = (icons ++ if ok then [(contents_path, contents_bytes)] else [])%list
  end.

(** The run from [fs] gets as far as the loop, with [source_img] as the
    converted source image. *)
Definition loop_reached {I : Imaging} (fs : FS) (source_img : Image) : Prop :=
  is_ok (fst (Fs.makedirs dest_dir fs)) = true
  /\ load_fs (snd (Fs.makedirs dest_dir fs)) = Ok source_img.

(** ** The lines the script prints *)

(** Line 34. *)
Definition loading_line : string := "📱 Loading source image: " ++ source_path.

(** Line 40. *)
Definition loaded_line (source_img : Image) : string :=
  "✅ Source image loaded: " ++ size_str (im_size source_img).

(** Line 44. *)
Definition generating_line (spec : nat * string) : string :=
  "🖼️  Generating " ++ Str.of_nat (fst spec) ++ "x" ++ Str.of_nat (fst spec)
  ++ " -> " ++ snd spec.

(** Line 59. *)
Definition saved_line (filename : string) : string :=
  "   ✅ Saved: " ++ OsPath.join dest_dir filename.

(** Line 91. *)
Definition manifest_line : string := "📄 Generated Contents.json: " ++ contents_path.

(** Line 92. *)
Definition complete_line : string := "🎉 App icon generation complete!".

(** Line 95. *)
Definition error_line (e : exn) : string := "❌ Error: " ++ exn_str e.

(** The two lines of a table entry whose icon was saved. *)
Definition icon_lines (spec : nat * string) : list string :=
  [generating_line spec; saved_line (snd spec)].

(** The line of the entry of index [k], the one being generated when the
    loop stopped there; nothing past the end of the table. *)
Definition pending_line (table : list (nat * string)) (k : nat) : list string :=
  match table !! k with
  | Some spec => [generating_line spec]
  | None => []
  end.

(** ** The entry point *)

Section Main.
Context {I : Imaging}.


End Main.

(** ** Reading the sizes of a manifest entry *)

Module Points.

Definition digit (c : ascii) : option nat :=
  let n := nat_of_ascii c in
  if ((48 <=? n) && (n <=? 57))%nat%bool then Some (n - 48) else None.

(** The number a string starts with and what follows it; [None] if it
    starts with no digit. *)
Fixpoint digits_from (acc : nat) (seen : bool) (s : string) : option (nat * string) :=
  match s with
  | String c rest =>
      match digit c with
      | Some d => digits_from (10 * acc + d) true rest
      | None => if seen then Some (acc, s) else None
      end
  | EmptyString => if seen then Some (acc, s) else None
  end.

(** Twice the number a string starts with, which may end in [.5]. *)
Definition doubled (s : string) : option (nat * string) :=
  match digits_from 0 false s with
  | Some (n, String "." (String "5" rest)) => Some (2 * n + 1, rest)
  | Some (n, rest) => Some (2 * n, rest)
  | None => None
  end.

(** A scale tag: ["2x"] is 2. *)
Definition scale (s : string) : option nat :=
  match digits_from 0 false s with
  | Some (n, "x") => Some n
  | _ => None
  end.

(** A square size in points, doubled: ["83.5x83.5"] is 167. *)
Definition square_doubled (s : string) : option nat :=
  match doubled s with
  | Some (a, String "x" rest) =>
      match doubled rest with
      | Some (b, "") => if Nat.eqb a b then Some a else None
      | _ => None
      end
  | _ => None
  end.

End Points.

(** The image entries of a manifest. *)
Definition manifest_entries (o : json) : list json :=
  match Json.get "images" o with
  | Some (JList entries) => entries
  | _ => []
  end.

(** The edge length in pixels that an entry declares: its size in points
    times its scale, when that is a whole number. *)
Definition entry_pixels (e : json) : option nat :=
  match Json.get "scale" e, Json.get "size" e with
  | Some (JStr sc), Some (JStr sz) =>
      match Points.scale sc, Points.square_doubled sz with
      | Some k, Some d => if Nat.even (k * d) then Some (k * d / 2) else None
      | _, _ => None
      end
  | _, _ => None
  end.

Definition entry_filename (e : json) : option string :=
  match Json.get "filename" e with
  | Some (JStr f) => Some f
  | _ => None
  end.

(** The entry names a file of the icon table whose edge length is the one
    the entry declares. *)
Definition entry_in_table (e : json) : bool :=
  match entry_filename e, entry_pixels e with
  | Some f, Some n =>
      existsb (fun spec => Nat.eqb (fst spec) n && String.eqb (snd spec) f)%bool icon_sizes
  | _, _ => false
  end.

(** ** A small imaging library

    An instance of the interface that computes: a raster format of its
    own, conversion between RGB and RGBA, nearest-neighbour resizing, the
    rounded integer blend, and an encoder that writes a header and the
    band values.  It shows that the laws can be met and lets the script
    run on concrete worlds. *)
Module Toy.

Definition Z_of_byte (b : byte) : Z := Z.of_N (Byte.to_N b).

Definition byte_of_Z (z : Z) : byte :=
  match Byte.of_N (Z.to_N (Z.land z 255)) with
  | Some b => b
  | None => x00
  end.

(** Cut [count] chunks of [len] items off a list. *)
Fixpoint chunks {A} (len count : nat) (l : list A) : list (list A) :=
  match count with
  | O => []
  | S k => firstn len l :: chunks len k (skipn len l)
  end.

(** The raster format: the number of bands (3 or 4), the width, the
    height, then the band values row by row. *)
Definition decode (data : list byte) : outcome Image :=
  match data with
  | b :: w :: h :: body =>
      let bands := N.to_nat (Byte.to_N b) in
      let width := N.to_nat (Byte.to_N w) in
      let height := N.to_nat (Byte.to_N h) in
      if (((bands =? 3) || (bands =? 4))
          && (length body =? bands * width * height))%nat%bool
      then Ok (mkImage (if (bands =? 3)%nat then "RGB" else "RGBA") (width, height)
                 (chunks width height (chunks bands (width * height)
                                         (List.map Z_of_byte body))))
      else Raise (Exception "cannot identify image file")
  | _ => Raise (Exception "cannot identify image file")
  end.

Definition convert (im : Image) (mode : string) : outcome Image :=
  if String.eqb (im_mode im) mode then Ok im
  else if (String.eqb (im_mode im) "RGB" && String.eqb mode "RGBA")%bool
  then Ok (mkImage "RGBA" (im_size im)
             (List.map (List.map (fun px => (firstn 3 px ++ [255%Z])%list)) (im_rows im)))
  else if (String.eqb (im_mode im) "RGBA" && String.eqb mode "RGB")%bool
  then Ok (mkImage "RGB" (im_size im) (List.map (List.map (firstn 3)) (im_rows im)))
  else Raise (Exception "conversion not supported").

(** Nearest neighbour: the pixel at (x, y) of the result is the one at
    (x * w / w', y * h / h') of the image. *)
Definition resize (im : Image) (size : nat * nat) : outcome Image :=
  let '(w, h) := im_size im in
  let '(w', h') := size in
  if ((w =? 0) || (h =? 0))%nat%bool
  then Raise (Exception "cannot resize an empty image")
  else
    let columns := List.map (fun x => x * w / w') (seq 0 w') in
    let lines := List.map (fun y => y * h / h') (seq 0 h') in
    Ok (mkImage (im_mode im) size
          (List.map (fun y =>
                       let row := nth y (im_rows im) [] in
                       List.map (fun x => nth x row []) columns)
             lines)).

(** The rounded mix; the two ends of the mask need no division. *)
Definition blend (mask under over : Z) : Z :=
  if (mask =? 0)%Z then under
  else if (mask =? 255)%Z then over
  else ((under * (255 - mask) + over * mask + 127) / 255)%Z.

Definition png_encode (im : Image) : outcome (list byte) :=
  Ok (list_byte_of_string
        ("PNG " ++ im_mode im ++ " " ++ Str.of_nat (fst (im_size im)) ++ "x"
         ++ Str.of_nat (snd (im_size im)) ++ Str.nl)
      ++ List.map byte_of_Z (concat (concat (im_rows im))))%list.

#[export] Instance imaging : Imaging := {
  decode := decode;
  convert := convert;
  resize_lanczos := resize;
  blend := blend;
  png_encode := png_encode
}.

(** A 4x2 RGBA source: opaque red, green and grey pixels, transparent
    ones, and one half-transparent blue pixel. *)
Definition source_bytes : list byte :=
  [ x04; x04; x02;
    xff; x00; x00; xff;   x00; xff; x00; x00;
    x00; xff; x00; xff;   x12; x34; x56; x00;
    x00; x00; xff; x80;   x80; x80; x80; xff;
    x00; x00; x00; x00;   xff; x00; x00; xff ].

Definition empty_fs : FS := mkFS ∅ ∅ ∅ ∅ [].

(** A filesystem that holds the source image and nothing else. *)
Definition fs0 : FS :=
  let fs := snd (Fs.makedirs (OsPath.dirname source_path) empty_fs) in
  mkFS (fs_dirs fs) (<[ source_path := source_bytes ]> (fs_files fs))
    (fs_noread fs) (fs_nowrite fs) [].

Definition world0 : World := mkWorld fs0 [].




(** Another source: one opaque blue RGB pixel. *)
Definition source_bytes1 : list byte := [ x03; x01; x01; x00; x00; xff ].

Definition fs1 : FS :=
  mkFS (fs_dirs fs0) (<[ source_path := source_bytes1 ]> (fs_files fs0))
    (fs_noread fs0) (fs_nowrite fs0) [].

Definition world1 : World := mkWorld fs1 [].

(** The same with the destination directory already there and a file of
    somebody else in it. *)
Definition notes_path : string := OsPath.join dest_dir "notes.txt".

Definition fs_notes : FS :=
  let fs := snd (Fs.makedirs dest_dir fs0) in
  mkFS (fs_dirs fs) (<[ notes_path := list_byte_of_string "keep me" ]> (fs_files fs))
    (fs_noread fs) (fs_nowrite fs) [].

Definition world_notes : World := mkWorld fs_notes [].

(** The source is there but the fourth icon may not be written. *)
Definition fs_locked : FS :=
  mkFS (fs_dirs fs0) (fs_files fs0) (fs_noread fs0) {[ icon_path "Icon-58.png" ]} [].

Definition world_locked : World := mkWorld fs_locked [].

(** No source image, and nothing in the way of the destination. *)
Definition world_empty : World := mkWorld empty_fs [].

(** No source image, and no directory may be made under the root. *)
Definition fs_blocked : FS := mkFS ∅ ∅ ∅ {[ "/Users" ]} [].

Definition world_blocked : World := mkWorld fs_blocked [].

(** The source as the loop of [world0] receives it. *)
Definition source_img0 : Image :=
  mkImage "RGBA" (4, 2)
    [ [[255; 0; 0; 255]; [0; 255; 0; 0]; [0; 255; 0; 255]; [18; 52; 86; 0]];
      [[0; 0; 255; 128]; [128; 128; 128; 255]; [0; 0; 0; 0]; [255; 0; 0; 255]] ]%Z.

(** The source is there, and so are the destination directory, a stale
    manifest and a stale first icon from some earlier run. *)
Definition fs_stale : FS :=
  let fs := snd (Fs.makedirs dest_dir fs0) in
  mkFS (fs_dirs fs)
    (<[ contents_path := list_byte_of_string "{}" ]>
       (<[ icon_path "Icon-20.png" := list_byte_of_string "old" ]> (fs_files fs)))
    (fs_noread fs) (fs_nowrite fs) [].

Definition world_stale : World := mkWorld fs_stale [].

(** A regular file sits where the destination directory should be. *)
Definition fs_occupied : FS :=
  let fs := snd (Fs.makedirs (OsPath.dirname dest_dir) fs0) in
  mkFS (fs_dirs fs) (<[ dest_dir := list_byte_of_string "not a directory" ]> (fs_files fs))
    (fs_noread fs) (fs_nowrite fs) [].

Definition world_occupied : World := mkWorld fs_occupied [].

End Toy.


(** * Proofs *)

(** ** The definitions at work *)

Example join_icon : OsPath.join dest_dir "Icon-20.png" = dest_dir ++ "/Icon-20.png".
Proof. reflexivity. Qed.

Example join_absolute : OsPath.join "/a/b" "/c" = "/c".
Proof. reflexivity. Qed.

Example join_after_separator : OsPath.join "/a/b/" "c" = "/a/b/c".
Proof. reflexivity. Qed.

Example parents_of_path : OsPath.parents "/a/bc/d" = ["/a"; "/a/bc"].
Proof. reflexivity. Qed.

Example dirname_of_manifest : OsPath.dirname contents_path = dest_dir.
Proof. reflexivity. Qed.

Example size_str_of_pair : size_str (512, 512) = "(512, 512)".
Proof. reflexivity. Qed.

Example dumps_info :
  Json.dumps 2 (JDict [("author", JStr "xcode"); ("version", JInt 1)])
  = "{" ++ Str.nl
    ++ "  " ++ Str.dq ++ "author" ++ Str.dq ++ ": " ++ Str.dq ++ "xcode" ++ Str.dq ++ ","
    ++ Str.nl
    ++ "  " ++ Str.dq ++ "version" ++ Str.dq ++ ": 1" ++ Str.nl
    ++ "}".
Proof. reflexivity. Qed.

Example dumps_nested :
  Json.dumps 2 (JList [JDict []; JList [JInt (-12)]])
  = "[" ++ Str.nl ++ "  {}," ++ Str.nl ++ "  [" ++ Str.nl ++ "    -12" ++ Str.nl
    ++ "  ]" ++ Str.nl ++ "]".
Proof. reflexivity. Qed.

Example dumps_escapes :
  Json.dumps 2 (JStr ("a\b" ++ Str.dq ++ Str.nl))
  = Str.dq ++ "a\\b\" ++ Str.dq ++ "\n" ++ Str.dq.
Proof. reflexivity. Qed.

(** The manifest text reads back as the manifest. *)
Lemma contents_text_loads : Json.loads contents_text = Some contents_json.
Proof. vm_compute. reflexivity. Qed.

Example loads_rejects_open_array : Json.loads "[1, 2" = None.
Proof. reflexivity. Qed.

(** A transparent and an opaque pixel pasted onto white. *)
Example paste_two_pixels :
  PIL.paste (I := Toy.imaging) (PIL.new "RGB" (2, 1) white)
    (mkImage "RGBA" (2, 1) [[[10; 20; 30; 0]; [10; 20; 30; 255]]]%Z)
    (mkImage "L" (2, 1) [[[0]; [255]]]%Z)
  = Ok (mkImage "RGB" (2, 1) [[[255; 255; 255]; [10; 20; 30]]]%Z).
Proof. reflexivity. Qed.

(** A row of three pixels composited into a 3x3 icon: transparent, opaque
    and half-transparent blue; where the pasted image has no pixel the
    background stays. *)
Example composite_row :
  composite (I := Toy.imaging)
    (mkImage "RGBA" (3, 1) [[[10; 20; 30; 0]; [10; 20; 30; 255]; [0; 0; 255; 128]]]%Z) 3
  = Ok (mkImage "RGB" (3, 3)
          [ [[255; 255; 255]; [10; 20; 30]; [127; 127; 255]];
            [[255; 255; 255]; [255; 255; 255]; [255; 255; 255]];
            [[255; 255; 255]; [255; 255; 255]; [255; 255; 255]] ]%Z).
Proof. reflexivity. Qed.

Example paste_mask_mismatch :
  PIL.paste (I := Toy.imaging) (PIL.new "RGB" (1, 1) white)
    (mkImage "RGBA" (1, 1) [[[0; 0; 0; 0]]]%Z) (mkImage "L" (2, 1) [[[0]; [0]]]%Z)
  = Raise (Exception "images do not match").
Proof. reflexivity. Qed.

(** With the fourth icon file locked the run writes three icons, reports
    the error and returns [False]. *)
Example locked_run :
  let r := generate_app_icons (I := Toy.imaging) Toy.world_locked in
  fst r = Ok false
  /\ List.map fst (fs_journal (w_fs (snd r)))
     = [icon_path "Icon-20.png"; icon_path "Icon-29.png"; icon_path "Icon-40.png"]
  /\ fs_files (w_fs (snd r)) !! contents_path = None
  /\ last (w_stdout (snd r))
     = Some ("❌ Error: [Errno 13] Permission denied: '" ++ icon_path "Icon-58.png" ++ "'").
Proof. vm_compute. repeat split; reflexivity. Qed.

(** With no source the run makes the directories, prints two lines and
    returns [False]. *)
Example empty_run :
  let r := generate_app_icons (I := Toy.imaging) Toy.world_empty in
  fst r = Ok false
  /\ w_stdout (snd r)
     = [ "📱 Loading source image: " ++ source_path;
         "❌ Error: [Errno 2] No such file or directory: '" ++ source_path ++ "'" ]
  /\ fs_journal (w_fs (snd r)) = [].
Proof. vm_compute. repeat split; reflexivity. Qed.

(** ** The script and its filesystem summary agree *)

Section Agreement.
Context {I : Imaging}.

Lemma generate_icon_step source_img size filename w :
  match render source_img size with
  | Ok data =>
      match Fs.write (icon_path filename) data (w_fs w) with
      | Ok fs' => exists out, generate_icon source_img (size, filename) w
                              = (Ok tt, mkWorld fs' out)
      | Raise e => exists out, generate_icon source_img (size, filename) w
                               = (Raise e, mkWorld (w_fs w) out)
      end
  | Raise e => exists out, generate_icon source_img (size, filename) w
                           = (Raise e, mkWorld (w_fs w) out)
  end.
Proof.
  unfold render, generate_icon, Image_save, write_file, bind, print, lift, icon_path.
  cbn [w_fs w_stdout].
  destruct (resize_lanczos source_img (size, size)) as [resized|e]; [|eauto].
  destruct (flatten resized size) as [flat|e]; [|eauto].
  destruct (png_encode flat) as [data|e]; [|eauto].
  destruct (Fs.write (OsPath.join dest_dir filename) data (w_fs w)) as [fs'|e]; eauto.
Qed.

Lemma for_each_icons_fs source_img table w :
  fst (for_each table (generate_icon source_img) w)
  = fst (icons_fs source_img table (w_fs w))
  /\ w_fs (snd (for_each table (generate_icon source_img) w))
     = snd (icons_fs source_img table (w_fs w)).
Proof.
  revert w; induction table as [|[size filename] rest IH]; intros w.
  - split; reflexivity.
  - cbn [for_each icons_fs]. unfold bind.
    pose proof (generate_icon_step source_img size filename w) as Hstep.
    destruct (render source_img size) as [data|e].
    + destruct (Fs.write (icon_path filename) data (w_fs w)) as [fs'|e].
      * destruct Hstep as [out ->]. apply (IH (mkWorld fs' out)).
      * destruct Hstep as [out ->]. split; reflexivity.
    + destruct Hstep as [out ->]. split; reflexivity.
Qed.

Lemma generate_body_fs w :
  fst (generate_body w) = fst (body_fs (w_fs w))
  /\ w_fs (snd (generate_body w)) = snd (body_fs (w_fs w)).
Proof.
  unfold generate_body, body_fs, load_fs, Image_open, read_file, bind, lift, print.
  cbv beta iota.
  destruct (Fs.read source_path (w_fs w)) as [data|e]; [|split; reflexivity].
  destruct (decode data) as [img|e]; [|split; reflexivity].
  destruct (convert img "RGBA") as [source_img|e]; [|split; reflexivity].
  match goal with
  | |- context [for_each icon_sizes (generate_icon source_img) ?w0] =>
      destruct (for_each_icons_fs source_img icon_sizes w0) as [Hr Hfs];
      destruct (for_each icon_sizes (generate_icon source_img) w0) as [[[]|e] w1]
  end; cbn [fst snd w_fs print] in Hr, Hfs.
  - destruct (icons_fs source_img icon_sizes (w_fs w)) as [[[]|e] fs1];
      cbn [fst snd] in Hr, Hfs; [|discriminate Hr].
    subst fs1. unfold write_file.
    destruct (Fs.write contents_path contents_bytes (w_fs w1)) as [fs2|e] eqn:Hw;
      unfold contents_bytes in Hw; rewrite Hw; split; reflexivity.
  - destruct (icons_fs source_img icon_sizes (w_fs w)) as [[[]|e'] fs1];
      cbn [fst snd] in Hr, Hfs; [discriminate Hr|].
    injection Hr as ->. subst fs1. split; reflexivity.
Qed.

Lemma generate_app_icons_fs w :
  fst (generate_app_icons w) = fst (run_fs (w_fs w))
  /\ w_fs (snd (generate_app_icons w)) = snd (run_fs (w_fs w)).
Proof.
  unfold generate_app_icons, run_fs, os_makedirs, try_except, bind, print.
  cbv beta iota.
  destruct (Fs.makedirs dest_dir (w_fs w)) as [[fs1'|e] fs1]; [|split; reflexivity].
  match goal with
  | |- context [generate_body ?w0] =>
      destruct (generate_body_fs w0) as [Hr Hfs];
      destruct (generate_body w0) as [[[]|e] w1]
  end; cbn [fst snd w_fs print] in Hr, Hfs;
    destruct (body_fs fs1) as [[[]|e'] fs2]; cbn [fst snd] in Hr, Hfs;
    try discriminate Hr; subst fs2; split; reflexivity.
Qed.

End Agreement.

(** ** Journals *)

Lemma apply_writes_snoc ws p d files :
  apply_writes (ws ++ [(p, d)]) files = <[ p := d ]> (apply_writes ws files).
Proof. unfold apply_writes. rewrite fold_left_app. reflexivity. Qed.

Lemma apply_writes_app ws1 ws2 files :
  apply_writes (ws1 ++ ws2) files = apply_writes ws2 (apply_writes ws1 files).
Proof. unfold apply_writes. apply fold_left_app. Qed.

Lemma apply_writes_lookup ws : forall files p,
  apply_writes ws files !! p
  = match last_write p ws with Some d => Some d | None => files !! p end.
Proof.
  induction ws as [|[q d] ws IH]; intros files p; [reflexivity|].
  change (apply_writes ((q, d) :: ws) files) with (apply_writes ws (<[ q := d ]> files)).
  rewrite IH. cbn [last_write].
  destruct (last_write p ws); [reflexivity|].
  destruct (String.eqb_spec p q) as [->|Hne].
  - apply lookup_insert_eq.
  - apply lookup_insert_ne. congruence.
Qed.

Lemma apply_writes_idem ws files :
  apply_writes ws (apply_writes ws files) = apply_writes ws files.
Proof.
  apply map_eq; intros p. rewrite !apply_writes_lookup.
  destruct (last_write p ws); reflexivity.
Qed.

Lemma last_write_None p ws : p ∉ List.map fst ws -> last_write p ws = None.
Proof.
  induction ws as [|[q d] ws IH]; [reflexivity|]. cbn [List.map fst last_write].
  intros Hnot. rewrite IH by (intros ?; apply Hnot; right; assumption).
  destruct (String.eqb_spec p q) as [->|]; [|reflexivity].
  exfalso. apply Hnot. left.
Qed.

Lemma last_write_NoDup p d ws :
  NoDup (List.map fst ws) -> (p, d) ∈ ws -> last_write p ws = Some d.
Proof.
  induction ws as [|[q d'] ws IH]; intros Hnd Hin.
  - inversion Hin.
  - cbn [List.map fst] in Hnd. apply NoDup_cons in Hnd as [Hq Hnd].
    cbn [last_write]. apply elem_of_cons in Hin as [Heq|Hin].
    + injection Heq as <- <-. rewrite last_write_None by assumption.
      rewrite String.eqb_refl. reflexivity.
    + rewrite (IH Hnd Hin). reflexivity.
Qed.

Lemma apply_writes_unchanged ws files p :
  p ∉ List.map fst ws -> apply_writes ws files !! p = files !! p.
Proof. intros H. rewrite apply_writes_lookup, last_write_None; auto. Qed.

Lemma extends_refl fs : extends fs fs [].
Proof. split; try reflexivity. symmetry; apply app_nil_r. Qed.

Lemma extends_trans fs1 fs2 fs3 ws ws' :
  extends fs1 fs2 ws -> extends fs2 fs3 ws' -> extends fs1 fs3 (ws ++ ws').
Proof.
  intros [Hd Hr Hw Hj Hf] [Hd' Hr' Hw' Hj' Hf']. split; try congruence.
  - rewrite Hj', Hj. symmetry; apply app_assoc.
  - rewrite Hf', Hf. symmetry; apply apply_writes_app.
Qed.

Lemma extends_same_perm fs fs' ws : extends fs fs' ws -> same_perm fs fs'.
Proof. intros [Hd _ Hw _ _]. split; congruence. Qed.

Lemma same_perm_trans fs1 fs2 fs3 :
  same_perm fs1 fs2 -> same_perm fs2 fs3 -> same_perm fs1 fs3.
Proof. intros [? ?] [? ?]. split; congruence. Qed.

Lemma same_perm_sym fs1 fs2 : same_perm fs1 fs2 -> same_perm fs2 fs1.
Proof. intros [? ?]. split; congruence. Qed.

(** ** Writes *)

Lemma write_extends p d fs fs' :
  Fs.write p d fs = Ok fs' -> extends fs fs' [(p, d)].
Proof.
  unfold Fs.write. repeat case_match; try discriminate.
  intros [= <-]. split; reflexivity.
Qed.

Lemma write_same_perm p d fs1 fs2 :
  same_perm fs1 fs2 ->
  match Fs.write p d fs1, Fs.write p d fs2 with
  | Ok _, Ok _ => True
  | Raise e1, Raise e2 => e1 = e2
  | _, _ => False
  end.
Proof.
  intros [Hd Hw]. unfold Fs.write, Fs.is_dir. rewrite Hd, Hw.
  repeat case_match; auto; congruence.
Qed.

(** ** The loop *)

Section Loop.
Context {I : Imaging}.

Lemma written_app source_img done1 done2 ws1 ws2 :
  written source_img done1 ws1 -> written source_img done2 ws2 ->
  written source_img (done1 ++ done2) (ws1 ++ ws2).
Proof. apply Forall2_app. Qed.

Lemma written_paths source_img done ws :
  written source_img done ws -> List.map fst ws = List.map icon_path (List.map snd done).
Proof.
  induction 1 as [|spec pd done ws [Hp _] _ IH]; [reflexivity|].
  cbn [List.map]. congruence.
Qed.

(** Whatever the filesystem, the loop writes the icons of the entries
    before the first one that fails, in the order of the table, and two
    filesystems that allow the same writes see the same outcome and the
    same writes. *)
Lemma write_is_ok_same_perm p d fs1 fs2 :
  same_perm fs1 fs2 -> is_ok (Fs.write p d fs1) = is_ok (Fs.write p d fs2).
Proof.
  intros H. pose proof (write_same_perm p d fs1 fs2 H) as Hw.
  destruct (Fs.write p d fs1), (Fs.write p d fs2); try contradiction; reflexivity.
Qed.

Lemma icon_fails_same_perm source_img spec fs1 fs2 :
  same_perm fs1 fs2 -> icon_fails source_img spec fs1 -> icon_fails source_img spec fs2.
Proof.
  intros H. unfold icon_fails. destruct (render source_img (fst spec)); [|auto].
  rewrite (write_is_ok_same_perm _ _ fs1 fs2 H). auto.
Qed.

Lemma icons_fs_rel source_img table : forall fs1 fs2,
  same_perm fs1 fs2 ->
  exists k ws,
    k <= length table
    /\ written source_img (firstn k table) ws
    /\ extends fs1 (snd (icons_fs source_img table fs1)) ws
    /\ extends fs2 (snd (icons_fs source_img table fs2)) ws
    /\ fst (icons_fs source_img table fs1) = fst (icons_fs source_img table fs2)
    /\ (fst (icons_fs source_img table fs1) = Ok tt <-> k = length table)
    /\ (k < length table ->
        exists spec, table !! k = Some spec /\ icon_fails source_img spec fs1).
Proof.
  induction table as [|[size filename] rest IH]; intros fs1 fs2 Hperm.
  - exists 0, []. cbn. split; [lia|]. split; [constructor|].
    do 2 (split; [apply extends_refl|]). split; [reflexivity|].
    split; [split; reflexivity|lia].
  - cbn [icons_fs].
    assert (Hstop : forall e : exn,
      icon_fails source_img (size, filename) fs1 ->
      exists k ws,
        k <= length ((size, filename) :: rest)
        /\ written source_img (firstn k ((size, filename) :: rest)) ws
        /\ extends fs1 fs1 ws /\ extends fs2 fs2 ws
        /\ @Raise unit e = Raise e
        /\ (@Raise unit e = Ok tt <-> k = length ((size, filename) :: rest))
        /\ (k < length ((size, filename) :: rest) ->
            exists spec, ((size, filename) :: rest) !! k = Some spec
                         /\ icon_fails source_img spec fs1)).
    { intros e Hfail. exists 0, []. cbn [length firstn]. split; [lia|].
      split; [constructor|]. do 2 (split; [apply extends_refl|]).
      split; [reflexivity|]. split; [split; [discriminate|lia]|].
      intros _. exists (size, filename). split; [reflexivity|exact Hfail]. }
    destruct (render source_img size) as [data|e] eqn:Hrender;
      [|apply Hstop; unfold icon_fails; cbn [fst]; rewrite Hrender; exact Logic.I].
    pose proof (write_same_perm (icon_path filename) data fs1 fs2 Hperm) as Hw.
    destruct (Fs.write (icon_path filename) data fs1) as [fs1'|e1] eqn:Hw1;
      destruct (Fs.write (icon_path filename) data fs2) as [fs2'|e2] eqn:Hw2;
      try contradiction;
      [|subst e2; apply Hstop; unfold icon_fails; cbn [fst snd];
        rewrite Hrender, Hw1; reflexivity].
    apply write_extends in Hw1, Hw2.
    assert (Hperm1 : same_perm fs1 fs1') by (eapply extends_same_perm; eauto).
    destruct (IH fs1' fs2') as (k & ws & Hk & Hws & He1 & He2 & Heq & Hok & Hfail).
    { eapply same_perm_trans; [apply same_perm_sym; exact Hperm1|].
      eapply same_perm_trans; [apply Hperm|]. eapply extends_same_perm; eauto. }
    exists (S k), ((icon_path filename, data) :: ws). cbn [length firstn].
    split; [lia|]. split; [constructor; [split; [reflexivity|exact Hrender]|exact Hws]|].
    split; [apply (extends_trans _ _ _ _ _ Hw1 He1)|].
    split; [apply (extends_trans _ _ _ _ _ Hw2 He2)|].
    split; [exact Heq|]. split; [rewrite Hok; lia|].
    intros Hlt. destruct Hfail as (spec & Hspec & Hf); [lia|].
    exists spec. split; [exact Hspec|].
    eapply icon_fails_same_perm; [apply same_perm_sym; exact Hperm1|exact Hf].
Qed.

End Loop.

(** ** The body of the [try] *)

Section Body.
Context {I : Imaging}.

(** The manifest is written after the whole table, and only then; a
    failure leaves the icons written so far. *)
Lemma body_fs_rel fs1 fs2 :
  same_perm fs1 fs2 -> load_fs fs1 = load_fs fs2 ->
  match load_fs fs1 with
  | Raise e => body_fs fs1 = (Raise e, fs1) /\ body_fs fs2 = (Raise e, fs2)
  | Ok source_img =>
      exists k ws,
        k <= length icon_sizes
        /\ written source_img (firstn k icon_sizes) ws
        /\ (is_ok (fst (body_fs fs1)) = true -> k = length icon_sizes)
        /\ (k < length icon_sizes ->
            exists spec, icon_sizes !! k = Some spec /\ icon_fails source_img spec fs1)
        /\ fst (body_fs fs1) = fst (body_fs fs2)
        /\ let all := (ws ++ if is_ok (fst (body_fs fs1))
                            then [(contents_path, contents_bytes)] else [])%list in
           extends fs1 (snd (body_fs fs1)) all /\ extends fs2 (snd (body_fs fs2)) all
  end.
Proof.
  intros Hperm Hload. unfold body_fs. rewrite <- Hload.
  destruct (load_fs fs1) as [source_img|e]; [|split; reflexivity].
  destruct (icons_fs_rel source_img icon_sizes fs1 fs2 Hperm)
    as (k & ws & Hk & Hws & He1 & He2 & Heq & Hok & Hfail).
  exists k, ws.
  destruct (icons_fs source_img icon_sizes fs1) as [[[]|e1] fs1'];
    destruct (icons_fs source_img icon_sizes fs2) as [[[]|e2] fs2'];
    cbn [fst snd] in *; try discriminate Heq.
  - assert (Hperm' : same_perm fs1' fs2').
    { eapply same_perm_trans; [apply same_perm_sym; eapply extends_same_perm; eauto|].
      eapply same_perm_trans; [apply Hperm|]. eapply extends_same_perm; eauto. }
    pose proof (write_same_perm contents_path contents_bytes fs1' fs2' Hperm') as Hw.
    destruct (Fs.write contents_path contents_bytes fs1') as [fs1''|e1] eqn:Hw1;
      destruct (Fs.write contents_path contents_bytes fs2') as [fs2''|e2] eqn:Hw2;
      try contradiction; cbn [fst snd is_ok].
    + apply write_extends in Hw1, Hw2.
      split; [exact Hk|]. split; [exact Hws|].
      split; [intros _; apply Hok; reflexivity|]. split; [exact Hfail|].
      split; [reflexivity|].
      split; eapply extends_trans; eauto.
    + subst e2. split; [exact Hk|]. split; [exact Hws|].
      split; [discriminate|]. split; [exact Hfail|]. split; [reflexivity|].
      cbn zeta. rewrite app_nil_r. split; assumption.
  - injection Heq as ->. cbn [is_ok].
    split; [exact Hk|]. split; [exact Hws|].
    split; [discriminate|]. split; [exact Hfail|]. split; [reflexivity|].
    cbn zeta. rewrite app_nil_r. split; assumption.
Qed.

End Body.

(** ** Directory creation *)

Lemma mkdir_exist_ok_spec p fs fs' :
  Fs.mkdir_exist_ok p fs = Ok fs' ->
  fs_files fs' = fs_files fs /\ fs_noread fs' = fs_noread fs
  /\ fs_nowrite fs' = fs_nowrite fs /\ fs_journal fs' = fs_journal fs
  /\ fs_dirs fs' = {[ p ]} ∪ fs_dirs fs.
Proof.
  unfold Fs.mkdir_exist_ok, Fs.is_dir.
  destruct (bool_decide (p ∈ fs_dirs fs)) eqn:Hdir.
  - intros [= <-]. apply bool_decide_eq_true in Hdir.
    do 4 (split; [reflexivity|]). apply leibniz_equiv. set_solver.
  - repeat case_match; try discriminate. intros [= <-].
    do 4 (split; [reflexivity|]). reflexivity.
Qed.

Lemma mkdir_exist_ok_present p fs :
  p ∈ fs_dirs fs -> Fs.mkdir_exist_ok p fs = Ok fs.
Proof.
  intros H. unfold Fs.mkdir_exist_ok, Fs.is_dir.
  rewrite bool_decide_eq_true_2 by assumption. reflexivity.
Qed.

Lemma mkdir_all_spec ps : forall fs o fs',
  Fs.mkdir_all ps fs = (o, fs') ->
  fs_files fs' = fs_files fs /\ fs_noread fs' = fs_noread fs
  /\ fs_nowrite fs' = fs_nowrite fs /\ fs_journal fs' = fs_journal fs
  /\ fs_dirs fs ⊆ fs_dirs fs'
  /\ fs_dirs fs' ⊆ list_to_set ps ∪ fs_dirs fs
  /\ (is_ok o = true -> forall p, p ∈ ps -> p ∈ fs_dirs fs').
Proof.
  induction ps as [|p rest IH]; intros fs o fs'; cbn [Fs.mkdir_all].
  - intros [= <- <-]. do 4 (split; [reflexivity|]).
    split; [reflexivity|]. split; [apply union_subseteq_r|].
    intros _ p Hp. inversion Hp.
  - destruct (Fs.mkdir_exist_ok p fs) as [fs1|e] eqn:Hmk.
    + intros Hrest. apply mkdir_exist_ok_spec in Hmk as (Hf & Hr & Hw & Hj & Hd).
      apply IH in Hrest as (Hf' & Hr' & Hw' & Hj' & Hsub & Hsup & Hall).
      do 4 (split; [congruence|]).
      rewrite Hd in Hsub, Hsup. cbn [list_to_set].
      split; [clear -Hsub; set_solver|]. split; [clear -Hsup; set_solver|].
      intros Hok q Hq. apply elem_of_cons in Hq as [->|Hq]; [|auto].
      clear -Hsub; set_solver.
    + intros [= <- <-]. do 4 (split; [reflexivity|]).
      split; [reflexivity|]. split; [apply union_subseteq_r|]. discriminate.
Qed.

Lemma mkdir_all_present ps : forall fs,
  (forall p, p ∈ ps -> p ∈ fs_dirs fs) -> Fs.mkdir_all ps fs = (Ok fs, fs).
Proof.
  induction ps as [|p rest IH]; intros fs Hall; cbn [Fs.mkdir_all]; [reflexivity|].
  rewrite mkdir_exist_ok_present by (apply Hall; left).
  apply IH. intros q Hq. apply Hall. right. exact Hq.
Qed.

Lemma mkdir_all_fail_again ps : forall fs e fs',
  Fs.mkdir_all ps fs = (Raise e, fs') -> Fs.mkdir_all ps fs' = (Raise e, fs').
Proof.
  induction ps as [|p rest IH]; intros fs e fs'; cbn [Fs.mkdir_all]; [discriminate|].
  destruct (Fs.mkdir_exist_ok p fs) as [fs1|e1] eqn:Hmk.
  - intros Hrest.
    apply mkdir_exist_ok_spec in Hmk as (_ & _ & _ & _ & Hd).
    pose proof (mkdir_all_spec _ _ _ _ Hrest) as (_ & _ & _ & _ & Hsub & _).
    rewrite mkdir_exist_ok_present by set_solver.
    eapply IH; eassumption.
  - intros [= <- <-]. rewrite Hmk. reflexivity.
Qed.

Lemma makedirs_unfold p fs :
  Fs.makedirs p fs = Fs.mkdir_all (OsPath.parents p ++ [p])%list fs.
Proof. reflexivity. Qed.

Lemma makedirs_present p fs :
  (forall q, q ∈ (OsPath.parents p ++ [p])%list -> q ∈ fs_dirs fs) ->
  Fs.makedirs p fs = (Ok fs, fs).
Proof. rewrite makedirs_unfold. apply mkdir_all_present. Qed.

Lemma makedirs_fail_again p fs e fs' :
  Fs.makedirs p fs = (Raise e, fs') -> Fs.makedirs p fs' = (Raise e, fs').
Proof. rewrite !makedirs_unfold. apply mkdir_all_fail_again. Qed.

(** ** The paths of the script *)

Lemma output_paths_NoDup : NoDup output_paths.
Proof. apply (bool_decide_unpack _). vm_compute. exact I. Qed.

Lemma source_not_output : source_path ∉ output_paths.
Proof. apply (bool_decide_unpack _). vm_compute. exact I. Qed.

Lemma source_not_made : source_path ∉ (OsPath.parents dest_dir ++ [dest_dir])%list.
Proof. apply (bool_decide_unpack _). vm_compute. exact I. Qed.

Lemma output_paths_length : length output_paths = 14.
Proof. reflexivity. Qed.

Lemma icon_sizes_length : length icon_sizes = 13.
Proof. reflexivity. Qed.

(** ** The whole run, on the filesystem *)

Section Run.
Context {I : Imaging}.

Lemma load_fs_stable fs fs' :
  (source_path ∈ fs_dirs fs <-> source_path ∈ fs_dirs fs') ->
  fs_files fs !! source_path = fs_files fs' !! source_path ->
  fs_noread fs = fs_noread fs' ->
  load_fs fs = load_fs fs'.
Proof.
  intros Hd Hf Hr. unfold load_fs, Fs.read, Fs.is_dir.
  rewrite (bool_decide_ext _ _ Hd), Hf, Hr. reflexivity.
Qed.

Lemma body_fs_writes fs1 fs2 :
  same_perm fs1 fs2 -> load_fs fs1 = load_fs fs2 ->
  exists ws,
    body_writes fs1 (is_ok (fst (body_fs fs1))) ws
    /\ extends fs1 (snd (body_fs fs1)) ws
    /\ extends fs2 (snd (body_fs fs2)) ws
    /\ fst (body_fs fs1) = fst (body_fs fs2).
Proof.
  intros Hperm Hload. pose proof (body_fs_rel fs1 fs2 Hperm Hload) as H.
  unfold body_writes. destruct (load_fs fs1) as [source_img|e].
  - destruct H as (k & icons & Hk & Hws & Hok & Hfail & Heq & He1 & He2).
    eexists. split; [exists k, icons|].
    + split; [exact Hk|]. split; [exact Hws|]. split; [exact Hok|].
      split; [exact Hfail|reflexivity].
    + split; [exact He1|]. split; [exact He2|exact Heq].
  - destruct H as [-> ->]. exists []. cbn [fst snd is_ok].
    split; [split; reflexivity|]. do 2 (split; [apply extends_refl|]). reflexivity.
Qed.

Lemma written_prefix_paths source_img k icons (ok : bool) :
  k <= 13 -> written source_img (firstn k icon_sizes) icons -> (ok = true -> k = 13) ->
  List.map fst (icons ++ if ok then [(contents_path, contents_bytes)] else [])%list
  = firstn (if ok then 14 else k) output_paths.
Proof.
  intros Hk Hws Hok.
  apply written_paths in Hws. rewrite <- firstn_map in Hws.
  rewrite <- (firstn_map icon_path) in Hws. fold icon_filenames icon_paths in Hws.
  assert (Hlen : length icon_paths = 13) by reflexivity.
  destruct ok.
  - rewrite (Hok eq_refl) in Hws. rewrite map_app, Hws. reflexivity.
  - rewrite app_nil_r, Hws. unfold output_paths.
    rewrite firstn_app, Hlen. replace (k - 13) with 0 by lia.
    cbn [firstn]. rewrite app_nil_r. reflexivity.
Qed.

Lemma body_writes_paths fs ok ws :
  body_writes fs ok ws ->
  exists k, List.map fst ws = firstn k output_paths
            /\ (ok = true -> k = 14) /\ (ok = false -> k <= 13).
Proof.
  unfold body_writes. destruct (load_fs fs) as [source_img|e].
  - intros (k & icons & Hk & Hws & Hok & _ & ->).
    rewrite icon_sizes_length in Hk, Hok.
    exists (if ok then 14 else k).
    split; [eapply written_prefix_paths; eauto|].
    destruct ok; split; auto; discriminate.
  - intros [-> ->]. exists 0. split; [reflexivity|]. split; [discriminate|lia].
Qed.

Lemma body_writes_within fs ok ws p :
  body_writes fs ok ws -> p ∈ List.map fst ws -> p ∈ output_paths.
Proof.
  intros (k & Hk & _)%body_writes_paths Hp. rewrite Hk in Hp.
  exact (subseteq_take k output_paths p Hp).
Qed.

Lemma body_writes_NoDup fs ok ws : body_writes fs ok ws -> NoDup (List.map fst ws).
Proof.
  intros (k & Hk & _)%body_writes_paths. rewrite Hk.
  eapply sublist_NoDup; [apply output_paths_NoDup|apply sublist_take].
Qed.

(** The run in one statement: a failure of [os.makedirs] leaves the run,
    otherwise the run returns whether the body succeeded, and the body has
    only written. *)
Lemma run_fs_master fs :
  match Fs.makedirs dest_dir fs with
  | (Raise e, fs1) => run_fs fs = (Raise e, fs1)
  | (Ok _, fs1) =>
      exists ok ws,
        fst (run_fs fs) = Ok ok
        /\ body_writes fs1 ok ws
        /\ extends fs1 (snd (run_fs fs)) ws
  end.
Proof.
  unfold run_fs. destruct (Fs.makedirs dest_dir fs) as [[fs1'|e] fs1]; [|reflexivity].
  destruct (body_fs_writes fs1 fs1) as (ws & Hws & He & _ & _);
    [split; reflexivity|reflexivity|].
  destruct (body_fs fs1) as [[[]|e] fs2]; cbn [fst snd is_ok] in *; eauto.
Qed.

End Run.

Section RunEffects.
Context {I : Imaging}.

Lemma makedirs_spec fs o fs1 :
  Fs.makedirs dest_dir fs = (o, fs1) ->
  fs_files fs1 = fs_files fs /\ fs_noread fs1 = fs_noread fs
  /\ fs_nowrite fs1 = fs_nowrite fs /\ fs_journal fs1 = fs_journal fs
  /\ fs_dirs fs ⊆ fs_dirs fs1
  /\ (source_path ∈ fs_dirs fs1 <-> source_path ∈ fs_dirs fs)
  /\ (is_ok o = true -> forall p, p ∈ (OsPath.parents dest_dir ++ [dest_dir])%list
                                  -> p ∈ fs_dirs fs1).
Proof.
  rewrite makedirs_unfold. intros H.
  apply mkdir_all_spec in H as (Hf & Hr & Hw & Hj & Hsub & Hsup & Hall).
  do 4 (split; [assumption|]). split; [assumption|]. split; [|assumption].
  split; [|apply Hsub]. intros Hin. apply Hsup in Hin.
  apply elem_of_union in Hin as [Hin|Hin]; [|exact Hin].
  apply elem_of_list_to_set in Hin. destruct (source_not_made Hin).
Qed.

(** Everything a run does to the files is a prefix of the fourteen writes,
    in their order, and the run returns [True] exactly when all fourteen
    were made.  If the loop is reached, the icons written are those of the
    table entries before the first that fails. *)
Lemma run_fs_effect fs :
  exists k ws,
    k <= 14
    /\ List.map fst ws = firstn k output_paths
    /\ fs_journal (snd (run_fs fs)) = (fs_journal fs ++ ws)%list
    /\ fs_files (snd (run_fs fs)) = apply_writes ws (fs_files fs)
    /\ (fst (run_fs fs) = Ok true <-> k = 14)
    /\ fs_noread (snd (run_fs fs)) = fs_noread fs
    /\ fs_nowrite (snd (run_fs fs)) = fs_nowrite fs
    /\ (forall source_img, loop_reached fs source_img ->
        exists icons,
          written source_img (firstn (Nat.min k 13) icon_sizes) icons
          /\ ws = (icons ++ if Nat.eqb k 14
                            then [(contents_path, contents_bytes)] else [])%list
          /\ (k < 13 -> exists spec,
                icon_sizes !! k = Some spec
                /\ icon_fails source_img spec (snd (Fs.makedirs dest_dir fs)))).
Proof.
  pose proof (run_fs_master fs) as H. unfold loop_reached.
  destruct (Fs.makedirs dest_dir fs) as [[fs1'|e] fs1] eqn:Hmk;
    apply makedirs_spec in Hmk as (Hf & Hr & Hw & Hj & _); cbn [fst snd is_ok].
  - destruct H as (ok & ws & Hres & Hws & [Hd' Hr' Hw' Hj' Hf']).
    rewrite Hres. unfold body_writes in Hws.
    destruct (load_fs fs1) as [source_img|e].
    + destruct Hws as (k & icons & Hk & Hicons & Hok & Hfail & ->).
      rewrite icon_sizes_length in Hk, Hok, Hfail.
      exists (if ok then 14 else k), (icons ++ if ok then [(contents_path, contents_bytes)]
                                               else [])%list.
      split; [destruct ok; lia|].
      split; [eapply written_prefix_paths; eauto|].
      split; [congruence|]. split; [congruence|].
      split; [destruct ok; split; try reflexivity; try discriminate; intros ->; lia|].
      split; [congruence|]. split; [congruence|].
      intros source_img' [_ [= <-]]. exists icons.
      destruct ok.
      * rewrite (Hok eq_refl) in Hicons. split; [exact Hicons|].
        split; [reflexivity|]. intros; lia.
      * replace (Nat.min k 13) with k by lia. split; [exact Hicons|].
        replace (Nat.eqb k 14) with false by (symmetry; apply Nat.eqb_neq; lia).
        split; [reflexivity|exact Hfail].
    + destruct Hws as [-> ->]. exists 0, []. split; [lia|]. split; [reflexivity|].
      rewrite app_nil_r in Hj' |- *. change (apply_writes [] ?m) with m in Hf' |- *.
      split; [congruence|]. split; [congruence|].
      split; [split; [discriminate|lia]|]. split; [congruence|]. split; [congruence|].
      intros source_img [_ [=]].
  - rewrite H. cbn [fst snd]. exists 0, []. split; [lia|]. split; [reflexivity|].
    split; [rewrite app_nil_r; exact Hj|]. split; [exact Hf|].
    split; [split; [discriminate|lia]|]. split; [assumption|]. split; [assumption|].
    intros source_img [[=] _].
Qed.

Lemma run_fs_frame fs p :
  p ∉ output_paths -> fs_files (snd (run_fs fs)) !! p = fs_files fs !! p.
Proof.
  intros Hp. destruct (run_fs_effect fs) as (k & ws & _ & Hk & _ & -> & _).
  apply apply_writes_unchanged. rewrite Hk. intros Hin.
  apply Hp. exact (subseteq_take k output_paths p Hin).
Qed.

Lemma run_fs_made fs ok1 fs1 :
  Fs.makedirs dest_dir fs = (Ok ok1, fs1) ->
  run_fs fs = (match fst (body_fs fs1) with Ok _ => Ok true | Raise _ => Ok false end,
               snd (body_fs fs1)).
Proof.
  intros H. unfold run_fs. rewrite H. destruct (body_fs fs1) as [[[]|e] fs2]; reflexivity.
Qed.

(** A second run finds everything as the first left it. *)
Lemma run_fs_twice fs :
  fst (run_fs (snd (run_fs fs))) = fst (run_fs fs)
  /\ fs_files (snd (run_fs (snd (run_fs fs)))) = fs_files (snd (run_fs fs))
  /\ fs_dirs (snd (run_fs (snd (run_fs fs)))) = fs_dirs (snd (run_fs fs)).
Proof.
  destruct (Fs.makedirs dest_dir fs) as [[fs1'|e] fs1] eqn:Hmk.
  - pose proof (makedirs_spec _ _ _ Hmk) as (_ & _ & _ & _ & _ & _ & Hall).
    specialize (Hall eq_refl).
    rewrite (run_fs_made _ _ _ Hmk). cbn [fst snd].
    destruct (body_fs_writes fs1 fs1) as (ws & Hws & He & _ & _);
      [split; reflexivity|reflexivity|].
    set (fs2 := snd (body_fs fs1)) in *.
    assert (Hload : load_fs fs1 = load_fs fs2).
    { destruct He as [Hd Hr _ _ Hf]. apply load_fs_stable; [rewrite Hd; tauto| |congruence].
      rewrite Hf. symmetry. apply apply_writes_unchanged. intros Hin.
      apply source_not_output. eapply body_writes_within; eauto. }
    destruct (body_fs_writes fs1 fs2 (extends_same_perm _ _ _ He) Hload)
      as (ws' & _ & He1 & He2 & Heq).
    fold fs2 in He1.
    rewrite (run_fs_made fs2 fs2 fs2).
    2:{ apply makedirs_present. intros p Hp.
        destruct He as [-> _ _ _ _]. apply Hall, Hp. }
    cbn [fst snd]. rewrite Heq. split; [reflexivity|].
    destruct He1 as [Hd1 _ _ _ Hf1], He2 as [Hd2 _ _ _ Hf2].
    split; [rewrite Hf2, Hf1; apply apply_writes_idem|exact Hd2].
  - assert (Hrun : run_fs fs = (Raise e, fs1)) by (unfold run_fs; rewrite Hmk; reflexivity).
    rewrite Hrun. cbn [fst snd].
    assert (Hrun' : run_fs fs1 = (Raise e, fs1)).
    { unfold run_fs. rewrite (makedirs_fail_again _ _ _ _ Hmk). reflexivity. }
    rewrite Hrun'. repeat split; reflexivity.
Qed.

End RunEffects.

(** ** File names and paths in the destination directory *)

Lemma append_inj_l (s a b : string) : s ++ a = s ++ b -> a = b.
Proof. induction s as [|c s IH]; cbn; [auto|]. intros [= H]. auto. Qed.

Lemma join_dest_dir name :
  has_sep name = false -> OsPath.join dest_dir name = dest_dir ++ String OsPath.sep name.
Proof.
  intros H. unfold OsPath.join.
  replace (Str.startswith_char name OsPath.sep) with false.
  - reflexivity.
  - destruct name as [|c name]; [reflexivity|]. cbn in H |- *.
    apply orb_false_iff in H as [-> _]. reflexivity.
Qed.

Lemma output_paths_names : output_paths = List.map icon_path output_names.
Proof. reflexivity. Qed.

Lemma output_names_plain : Forall (fun name => has_sep name = false) output_names.
Proof. repeat constructor. Qed.

Lemma unrelated_name_path name :
  has_sep name = false -> name ∉ output_names -> OsPath.join dest_dir name ∉ output_paths.
Proof.
  intros Hplain Hname Hin. rewrite output_paths_names in Hin.
  apply list_elem_of_fmap in Hin as (name' & Heq & Hin'). apply Hname.
  pose proof (proj1 (Forall_forall _ _) output_names_plain name' Hin') as Hplain'.
  unfold icon_path in Heq. rewrite !join_dest_dir in Heq by assumption.
  apply append_inj_l in Heq. injection Heq as ->. exact Hin'.
Qed.

(** ** The claims about files *)

(** C6. Idempotence: a second run, started on what the first run left,
    ends as the first did and leaves every file with the content the first
    run gave it; in particular each of the fourteen output files, icons and
    manifest, is byte for byte the same after the second run. *)
Theorem second_run_changes_nothing {I : Imaging} (w : World) :
  let first := generate_app_icons w in
  let second := generate_app_icons (snd first) in
  fst second = fst first
  /\ fs_files (w_fs (snd second)) = fs_files (w_fs (snd first))
  /\ Forall (fun p => fs_files (w_fs (snd second)) !! p
                      = fs_files (w_fs (snd first)) !! p) output_paths.
Proof.
  intros first second. subst first second.
  destruct (generate_app_icons_fs w) as [Hr1 Hfs1].
  destruct (generate_app_icons_fs (snd (generate_app_icons w))) as [Hr2 Hfs2].
  rewrite Hr2, Hfs2, Hr1, Hfs1.
  destruct (run_fs_twice (w_fs w)) as (Hr & Hf & _).
  split; [exact Hr|]. split; [exact Hf|].
  apply Forall_forall. intros p _. rewrite Hf. reflexivity.
Qed.

(** C7. Frame: a file of the destination directory whose name is none of
    the thirteen icon names and not [Contents.json] lies at a path that is
    none of the fourteen output paths and has after the run the content it
    had before; and so has every path that is not one of the fourteen:
    the run adds or overwrites those files only. *)
Theorem unrelated_files_untouched {I : Imaging} (w : World) (name : string) :
  has_sep name = false ->
  name ∉ output_names ->
  (OsPath.join dest_dir name ∉ output_paths)
  /\ fs_files (w_fs (snd (generate_app_icons w))) !! (OsPath.join dest_dir name)
     = fs_files (w_fs w) !! (OsPath.join dest_dir name)
  /\ forall p, p ∉ output_paths ->
               fs_files (w_fs (snd (generate_app_icons w))) !! p = fs_files (w_fs w) !! p.
Proof.
  intros Hplain Hname.
  pose proof (unrelated_name_path name Hplain Hname) as Hpath.
  destruct (generate_app_icons_fs w) as [_ Hfs]. rewrite Hfs.
  split; [exact Hpath|]. split; [apply run_fs_frame; exact Hpath|].
  intros p Hp. apply run_fs_frame; exact Hp.
Qed.


Lemma unrelated_files_untouched_witness :
  has_sep "notes.txt" = false
  /\ ("notes.txt" ∉ output_names)
  /\ fs_files (w_fs (snd (generate_app_icons (I := Toy.imaging) Toy.world_notes)))
       !! Toy.notes_path
     = fs_files (w_fs Toy.world_notes) !! Toy.notes_path.
Proof.
  assert (Hplain : has_sep "notes.txt" = false) by reflexivity.
  assert (Hname : "notes.txt" ∉ output_names)
    by (apply (bool_decide_unpack _); vm_compute; exact Logic.I).
  split; [exact Hplain|]. split; [exact Hname|].
  exact (proj1 (proj2 (unrelated_files_untouched (I := Toy.imaging) Toy.world_notes
                         "notes.txt" Hplain Hname))).
Defined.

(** ** Successful runs *)

Section Success.
Context {I : Imaging}.

Lemma run_fs_success_reached fs :
  fst (run_fs fs) = Ok true -> exists source_img, loop_reached fs source_img.
Proof.
  unfold run_fs, loop_reached, body_fs.
  destruct (Fs.makedirs dest_dir fs) as [[fs1'|e] fs1]; cbn [fst snd is_ok];
    [|discriminate].
  destruct (load_fs fs1) as [source_img|e]; [eauto|discriminate].
Qed.

Lemma written_lookup source_img done ws :
  written source_img done ws ->
  Forall (fun spec => exists data,
            render source_img (fst spec) = Ok data
            /\ (icon_path (snd spec), data) ∈ ws) done.
Proof.
  induction 1 as [|spec [p d] done ws [Hp Hr] _ IH]; constructor.
  - exists d. cbn [fst snd] in Hp, Hr. subst p. split; [exact Hr|]. left.
  - eapply Forall_impl; [exact IH|]. intros spec' (data & Hrender & Hin).
    exists data. split; [exact Hrender|]. right. exact Hin.
Qed.

(** After a successful run every icon file holds the icon of its table
    entry and the manifest file holds the manifest. *)
Lemma run_fs_success fs :
  fst (run_fs fs) = Ok true ->
  exists source_img,
    loop_reached fs source_img
    /\ Forall (fun spec => exists data,
                 render source_img (fst spec) = Ok data
                 /\ fs_files (snd (run_fs fs)) !! icon_path (snd spec) = Some data)
         icon_sizes
    /\ fs_files (snd (run_fs fs)) !! contents_path = Some contents_bytes.
Proof.
  intros Hok. destruct (run_fs_success_reached fs Hok) as (source_img & Hreach).
  exists source_img. split; [exact Hreach|].
  destruct (run_fs_effect fs) as (k & ws & _ & Hpaths & _ & Hf & Hk & _ & _ & Hloop).
  apply Hk in Hok. subst k.
  destruct (Hloop source_img Hreach) as (icons & Hicons & Hws & _).
  cbn [Nat.min Nat.eqb] in Hicons, Hws.
  change (firstn 13 icon_sizes) with icon_sizes in Hicons.
  change (firstn 14 output_paths) with output_paths in Hpaths.
  assert (Hnd : NoDup (List.map fst ws)) by (rewrite Hpaths; apply output_paths_NoDup).
  rewrite Hf. split.
  - eapply Forall_impl; [exact (written_lookup _ _ _ Hicons)|].
    intros spec (data & Hrender & Hin). exists data. split; [exact Hrender|].
    rewrite apply_writes_lookup, (last_write_NoDup _ data _ Hnd); [reflexivity|].
    rewrite Hws. apply elem_of_app. left. exact Hin.
  - rewrite apply_writes_lookup, (last_write_NoDup _ contents_bytes _ Hnd); [reflexivity|].
    rewrite Hws. apply elem_of_app. right. left.
Qed.

(** Two successful runs that loaded the same image leave the same bytes in
    each of the fourteen output files, whatever else their filesystems
    held. *)
Lemma same_source_same_outputs fs1 fs2 source_img :
  fst (run_fs fs1) = Ok true -> fst (run_fs fs2) = Ok true ->
  loop_reached fs1 source_img -> loop_reached fs2 source_img ->
  Forall (fun p => fs_files (snd (run_fs fs1)) !! p = fs_files (snd (run_fs fs2)) !! p)
    output_paths.
Proof.
  intros Hok1 Hok2 [_ Hl1] [_ Hl2].
  destruct (run_fs_success _ Hok1) as (img1 & [_ Hl1'] & Hicons1 & Hm1).
  destruct (run_fs_success _ Hok2) as (img2 & [_ Hl2'] & Hicons2 & Hm2).
  assert (img1 = source_img) by congruence. assert (img2 = source_img) by congruence.
  subst img1 img2. apply Forall_app. split.
  - unfold icon_paths, icon_filenames. rewrite List.map_map. apply Forall_map.
    apply Forall_forall. intros spec Hspec.
    pose proof (proj1 (Forall_forall _ _) Hicons1 _ Hspec) as (d1 & Hr1 & Hf1).
    pose proof (proj1 (Forall_forall _ _) Hicons2 _ Hspec) as (d2 & Hr2 & Hf2).
    rewrite Hf1, Hf2. congruence.
  - constructor; [|constructor]. rewrite Hm1, Hm2. reflexivity.
Qed.

End Success.

(** C1. The manifest: after a successful run the file [Contents.json] of
    the destination directory holds exactly the indented JSON text of the
    fixed structure, whatever the source image, the imaging library and the
    filesystem were, so two successful runs leave the same manifest; the
    structure is an object with the keys [images] and [info], [images]
    holding sixteen entries that each have the keys [filename], [idiom],
    [scale] and [size], and [info] holding the author [xcode] and the
    version 1, and the text reads back as that structure. *)
Theorem manifest_is_fixed (I1 I2 : Imaging) (w1 w2 : World) :
  fst (generate_app_icons (I := I1) w1) = Ok true ->
  fst (generate_app_icons (I := I2) w2) = Ok true ->
  fs_files (w_fs (snd (generate_app_icons (I := I1) w1))) !! contents_path
  = Some (list_byte_of_string (Json.dumps 2 contents_json))
  /\ fs_files (w_fs (snd (generate_app_icons (I := I2) w2))) !! contents_path
     = fs_files (w_fs (snd (generate_app_icons (I := I1) w1))) !! contents_path
  /\ contents_path = dest_dir ++ "/Contents.json"
  /\ Json.keys contents_json = ["images"; "info"]
  /\ (exists entries,
        Json.get "images" contents_json = Some (JList entries)
        /\ length entries = 16
        /\ Forall (fun e => Json.keys e = ["filename"; "idiom"; "scale"; "size"]) entries)
  /\ Json.get "info" contents_json
     = Some (JDict [("author", JStr "xcode"); ("version", JInt 1)])
  /\ Json.loads (Json.dumps 2 contents_json) = Some contents_json.
Proof.
  intros Hok1 Hok2.
  destruct (generate_app_icons_fs (I := I1) w1) as [Hr1 Hfs1].
  destruct (generate_app_icons_fs (I := I2) w2) as [Hr2 Hfs2].
  rewrite Hr1 in Hok1. rewrite Hr2 in Hok2. rewrite Hfs1, Hfs2.
  destruct (run_fs_success (I := I1) _ Hok1) as (_ & _ & _ & Hm1).
  destruct (run_fs_success (I := I2) _ Hok2) as (_ & _ & _ & Hm2).
  split; [exact Hm1|]. split; [rewrite Hm1; exact Hm2|].
  split; [reflexivity|]. split; [reflexivity|].
  split; [|split; [reflexivity|exact contents_text_loads]].
  eexists. split; [reflexivity|]. split; [reflexivity|].
  repeat constructor.
Qed.

(** ** The small imaging library meets the laws, and runs *)

Lemma toy_laws : ImagingLaws Toy.imaging.
Proof.
  split.
  - intros im m im'. cbn. unfold Toy.convert.
    destruct (String.eqb_spec (im_mode im) m) as [Heq|_].
    { intros [= <-]. exact Heq. }
    destruct (String.eqb (im_mode im) "RGB" && String.eqb m "RGBA")%bool eqn:H1.
    { intros [= <-]. apply andb_true_iff in H1 as [_ H1].
      apply String.eqb_eq in H1. symmetry. exact H1. }
    destruct (String.eqb (im_mode im) "RGBA" && String.eqb m "RGB")%bool eqn:H2.
    { intros [= <-]. apply andb_true_iff in H2 as [_ H2].
      apply String.eqb_eq in H2. symmetry. exact H2. }
    discriminate.
  - intros im [w' h'] im'. cbn. unfold Toy.resize. destruct (im_size im) as [w h].
    destruct (Nat.eqb w 0 || Nat.eqb h 0)%bool; [discriminate|]. intros [= <-]. reflexivity.
  - intros im [w' h'] im'. cbn. unfold Toy.resize. destruct (im_size im) as [w h].
    destruct (Nat.eqb w 0 || Nat.eqb h 0)%bool; [discriminate|]. intros [= <-]. reflexivity.
  - intros under over. reflexivity.
  - intros under over. reflexivity.
Qed.

Lemma world0_succeeds : fst (generate_app_icons (I := Toy.imaging) Toy.world0) = Ok true.
Proof. vm_compute. reflexivity. Qed.

Lemma world1_succeeds : fst (generate_app_icons (I := Toy.imaging) Toy.world1) = Ok true.
Proof. vm_compute. reflexivity. Qed.

Lemma manifest_is_fixed_witness :
  fst (generate_app_icons (I := Toy.imaging) Toy.world0) = Ok true
  /\ fst (generate_app_icons (I := Toy.imaging) Toy.world1) = Ok true
  /\ fs_files (w_fs (snd (generate_app_icons (I := Toy.imaging) Toy.world1)))
       !! contents_path
     = fs_files (w_fs (snd (generate_app_icons (I := Toy.imaging) Toy.world0)))
         !! contents_path.
Proof.
  split; [exact world0_succeeds|]. split; [exact world1_succeeds|].
  exact (proj1 (proj2 (manifest_is_fixed Toy.imaging Toy.imaging Toy.world0 Toy.world1
                         world0_succeeds world1_succeeds))).
Defined.

(** ** Pasting *)

Lemma size_eqb_refl sz : size_eqb sz sz = true.
Proof. unfold size_eqb. rewrite !Nat.eqb_refl. reflexivity. Qed.

Lemma overlay_length {A B} (f : A -> B -> A) under : forall over,
  length (PIL.overlay f under over) = length under.
Proof.
  induction under as [|u us IH]; intros [|o os]; cbn; try reflexivity.
  rewrite IH. reflexivity.
Qed.

Lemma overlay_Forall {A B} (P : A -> Prop) (f : A -> B -> A) under :
  (forall a b, P a -> P (f a b)) -> Forall P under ->
  forall over, Forall P (PIL.overlay f under over).
Proof.
  intros Hf. induction 1 as [|u us Hu Hus IH]; intros [|o os]; cbn;
    repeat constructor; auto.
Qed.

Lemma overlay_keep {A B} (f : A -> B -> A) under :
  (forall a b, f a b = a) -> forall over, PIL.overlay f under over = under.
Proof.
  intros Hf. induction under as [|u us IH]; intros [|o os]; cbn; try reflexivity.
  rewrite Hf, IH. reflexivity.
Qed.

Lemma nth_error_overlay {A B} (f : A -> B -> A) under : forall over i,
  nth_error (PIL.overlay f under over) i
  = match nth_error under i with
    | Some a => Some (match nth_error over i with Some b => f a b | None => a end)
    | None => None
    end.
Proof.
  induction under as [|u us IH]; intros [|o os] [|i]; cbn; try reflexivity.
  - destruct (nth_error us i); reflexivity.
  - apply IH.
Qed.

Lemma nth_error_combine_map {A B} (g : A -> B) (l : list A) : forall i,
  nth_error (combine l (List.map g l)) i
  = match nth_error l i with Some a => Some (a, g a) | None => None end.
Proof. induction l as [|a l IH]; intros [|i]; cbn; auto. Qed.

Lemma last_item_snoc {A} (t : list A) (a : A) : PIL.last_item (t ++ [a]) = Ok a.
Proof.
  unfold PIL.last_item. rewrite map_app. cbn [List.map].
  rewrite last_last. reflexivity.
Qed.

Section Flatten.
Context {I : Imaging}.

(** The last band of an RGBA image is its alpha band. *)
Lemma split_last_RGBA im :
  im_mode im = "RGBA" -> PIL.last_item (PIL.split im) = Ok (PIL.band im 3).
Proof.
  intros Hmode. unfold PIL.split. rewrite Hmode.
  change (List.map (PIL.band im) (seq 0 (length (PIL.getbands "RGBA"))))
    with ([PIL.band im 0; PIL.band im 1; PIL.band im 2] ++ [PIL.band im 3])%list.
  apply last_item_snoc.
Qed.

Lemma composite_RGBA resized size :
  im_mode resized = "RGBA" ->
  composite resized size
  = Ok (mkImage "RGB" (size, size)
          (PIL.overlay PIL.paste_row (repeat (repeat white size) size)
             (combine (im_rows resized)
                (List.map (List.map (fun px => [nth 3 px 0%Z])) (im_rows resized))))).
Proof.
  intros Hmode. unfold composite. rewrite (split_last_RGBA _ Hmode).
  unfold PIL.paste. cbn [PIL.band im_size im_rows im_mode PIL.new fst snd].
  rewrite size_eqb_refl. reflexivity.
Qed.

Lemma paste_pixel_length under over_mask :
  length (PIL.paste_pixel under over_mask) = length under.
Proof. apply overlay_length. Qed.

Lemma paste_row_length under over_mask :
  length (PIL.paste_row under over_mask) = length under.
Proof. apply overlay_length. Qed.

(** The shape of a flattened icon: mode RGB, the size asked for, that many
    rows of that many pixels, three bands each. *)
Lemma composite_shape resized size flat :
  im_mode resized = "RGBA" ->
  composite resized size = Ok flat ->
  im_mode flat = "RGB"
  /\ im_size flat = (size, size)
  /\ length (im_rows flat) = size
  /\ Forall (fun row => length row = size) (im_rows flat)
  /\ Forall (Forall (fun px : pixel => length px = 3)) (im_rows flat).
Proof.
  intros Hmode. rewrite (composite_RGBA _ _ Hmode). intros [= <-].
  cbn [im_mode im_size im_rows].
  split; [reflexivity|]. split; [reflexivity|].
  split; [rewrite overlay_length; apply repeat_length|].
  split.
  - apply overlay_Forall.
    + intros row om Hrow. rewrite paste_row_length. exact Hrow.
    + apply Forall_forall. intros row Hrow%list_elem_of_In%repeat_spec. subst row.
      apply repeat_length.
  - apply overlay_Forall.
    + intros row om Hrow. apply overlay_Forall; [|exact Hrow].
      intros px pm Hpx. rewrite paste_pixel_length. exact Hpx.
    + apply Forall_forall. intros row Hrow%list_elem_of_In%repeat_spec. subst row.
      apply Forall_forall. intros px Hpx%list_elem_of_In%repeat_spec. subst px.
      reflexivity.
Qed.

(** The pixel of a flattened icon, where the resized image has one. *)
Lemma composite_pixel resized size flat x y px :
  im_mode resized = "RGBA" ->
  composite resized size = Ok flat ->
  x < size -> y < size ->
  pixel_at resized x y = Some px ->
  pixel_at flat x y
  = Some (PIL.overlay (fun u o => blend (nth 3 px 0%Z) u o) white px).
Proof.
  intros Hmode. rewrite (composite_RGBA _ _ Hmode). intros [= <-] Hx Hy.
  unfold pixel_at. cbn [im_rows].
  destruct (nth_error (im_rows resized) y) as [row|] eqn:Hrow; [|discriminate].
  intros Hpx.
  rewrite nth_error_overlay, nth_error_repeat by exact Hy.
  rewrite nth_error_combine_map, Hrow.
  unfold PIL.paste_row. cbn [fst snd].
  rewrite nth_error_overlay, nth_error_repeat by exact Hx.
  rewrite nth_error_combine_map, Hpx. reflexivity.
Qed.

End Flatten.

(** ** The claims about images *)

Section Icons.
Context {I : Imaging} {L : ImagingLaws I}.

Lemma loaded_RGBA fs source_img : load_fs fs = Ok source_img -> im_mode source_img = "RGBA".
Proof.
  unfold load_fs. destruct (Fs.read source_path fs) as [data|e]; [|discriminate].
  destruct (decode data) as [img|e]; [|discriminate]. apply convert_mode.
Qed.

Lemma flatten_RGBA resized size :
  im_mode resized = "RGBA" -> flatten resized size = composite resized size.
Proof. intros H. unfold flatten. rewrite H. reflexivity. Qed.

Lemma render_spec source_img size data :
  im_mode source_img = "RGBA" ->
  render source_img size = Ok data ->
  exists resized flat,
    resize_lanczos source_img (size, size) = Ok resized
    /\ im_mode resized = "RGBA"
    /\ im_size resized = (size, size)
    /\ composite resized size = Ok flat
    /\ png_encode flat = Ok data.
Proof.
  intros Hmode. unfold render.
  destruct (resize_lanczos source_img (size, size)) as [resized|e] eqn:Hresize;
    [|discriminate].
  assert (Hmode' : im_mode resized = "RGBA")
    by (rewrite (resize_mode _ _ _ Hresize); exact Hmode).
  rewrite (flatten_RGBA _ _ Hmode').
  destruct (composite resized size) as [flat|e] eqn:Hflat; [|discriminate].
  intros Hdata. exists resized, flat.
  split; [reflexivity|]. split; [exact Hmode'|].
  split; [exact (resize_size _ _ _ Hresize)|]. split; [exact Hflat|exact Hdata].
Qed.

End Icons.



(** C2. Dimensions: after a successful run, for every entry of the icon
    table the file of that name in the destination directory exists and is
    the PNG encoding of an image whose size is the edge length of the
    entry both ways, with that many rows of that many pixels. *)
Theorem icons_have_table_dimensions {I : Imaging} {L : ImagingLaws I} (w : World) :
  fst (generate_app_icons w) = Ok true ->
  Forall (fun spec : nat * string =>
            exists flat data,
              fs_files (w_fs (snd (generate_app_icons w)))
                !! (OsPath.join dest_dir (snd spec)) = Some data
              /\ png_encode flat = Ok data
              /\ im_size flat = (fst spec, fst spec)
              /\ length (im_rows flat) = fst spec
              /\ Forall (fun row => length row = fst spec) (im_rows flat))
    icon_sizes.
Proof.
  intros Hok. destruct (generate_app_icons_fs w) as [Hr Hfs].
  rewrite Hr in Hok. rewrite Hfs.
  destruct (run_fs_success _ Hok) as (source_img & [_ Hload] & Hicons & _).
  apply loaded_RGBA in Hload.
  eapply Forall_impl; [exact Hicons|].
  intros [size filename] (data & Hrender & Hfile). cbn [fst snd] in *.
  destruct (render_spec _ _ _ Hload Hrender)
    as (resized & flat & _ & Hmode & _ & Hflat & Hdata).
  destruct (composite_shape _ _ _ Hmode Hflat) as (_ & Hsize & Hrows & Hrow & _).
  exists flat, data. auto.
Qed.

Lemma icons_have_table_dimensions_witness :
  fst (generate_app_icons (I := Toy.imaging) Toy.world0) = Ok true
  /\ Forall (fun spec : nat * string =>
               exists flat data,
                 fs_files (w_fs (snd (generate_app_icons (I := Toy.imaging) Toy.world0)))
                   !! (OsPath.join dest_dir (snd spec)) = Some data
                 /\ png_encode (Imaging := Toy.imaging) flat = Ok data
                 /\ im_size flat = (fst spec, fst spec)
                 /\ length (im_rows flat) = fst spec
                 /\ Forall (fun row => length row = fst spec) (im_rows flat))
       icon_sizes.
Proof.
  split; [exact world0_succeeds|].
  exact (icons_have_table_dimensions (I := Toy.imaging) (L := toy_laws) Toy.world0
           world0_succeeds).
Defined.

(** C3. Opacity: after a successful run every icon file is the PNG
    encoding of the source, converted to RGBA and resized to the size of
    the entry, composited over white through its alpha band: an image of
    mode RGB, whose bands are R, G and B with no alpha band and whose
    pixels have three values each, white wherever the resized image is
    transparent (alpha 0) and the colour of the resized image wherever it
    is opaque (alpha 255). *)
Theorem icons_are_opaque {I : Imaging} {L : ImagingLaws I} (w : World) :
  fst (generate_app_icons w) = Ok true ->
  exists source_img,
    loop_reached (w_fs w) source_img
    /\ Forall (fun spec : nat * string =>
                 exists resized flat data,
                   resize_lanczos source_img (fst spec, fst spec) = Ok resized
                   /\ im_mode resized = "RGBA"
                   /\ im_size resized = (fst spec, fst spec)
                   /\ composite resized (fst spec) = Ok flat
                   /\ png_encode flat = Ok data
                   /\ fs_files (w_fs (snd (generate_app_icons w)))
                        !! (OsPath.join dest_dir (snd spec)) = Some data
                   /\ im_mode flat = "RGB"
                   /\ PIL.getbands (im_mode flat) = ["R"; "G"; "B"]
                   /\ Forall (Forall (fun px : pixel => length px = 3)) (im_rows flat)
                   /\ (forall x y px,
                         x < fst spec -> y < fst spec ->
                         pixel_at resized x y = Some px ->
                         nth 3 px 0%Z = 0%Z ->
                         pixel_at flat x y = Some white)
                   /\ (forall x y r g b,
                         x < fst spec -> y < fst spec ->
                         pixel_at resized x y = Some [r; g; b; 255%Z] ->
                         pixel_at flat x y = Some [r; g; b]))
         icon_sizes.
Proof.
  intros Hok. destruct (generate_app_icons_fs w) as [Hr Hfs].
  rewrite Hr in Hok. rewrite Hfs.
  destruct (run_fs_success _ Hok) as (source_img & Hreach & Hicons & _).
  exists source_img. split; [exact Hreach|].
  destruct Hreach as [_ Hload]. apply loaded_RGBA in Hload.
  eapply Forall_impl; [exact Hicons|].
  intros [size filename] (data & Hrender & Hfile). cbn [fst snd] in *.
  destruct (render_spec _ _ _ Hload Hrender)
    as (resized & flat & Hresize & Hmode & Hsize & Hflat & Hdata).
  destruct (composite_shape _ _ _ Hmode Hflat) as (Hrgb & _ & _ & _ & Hbands).
  exists resized, flat, data.
  do 7 (split; [assumption|]). split; [rewrite Hrgb; reflexivity|].
  split; [exact Hbands|]. split.
  - intros x y px Hx Hy Hpx Halpha.
    rewrite (composite_pixel _ _ _ _ _ _ Hmode Hflat Hx Hy Hpx), Halpha.
    rewrite overlay_keep; [reflexivity|]. intros u o. apply blend_0.
  - intros x y r g b Hx Hy Hpx.
    rewrite (composite_pixel _ _ _ _ _ _ Hmode Hflat Hx Hy Hpx).
    cbn [nth PIL.overlay white]. rewrite !blend_255. reflexivity.
Qed.

Lemma icons_are_opaque_witness :
  fst (generate_app_icons (I := Toy.imaging) Toy.world0) = Ok true
  /\ exists source_img,
       loop_reached (I := Toy.imaging) (w_fs Toy.world0) source_img
       /\ Forall (fun spec : nat * string =>
                    exists resized flat data,
                      resize_lanczos (Imaging := Toy.imaging) source_img
                        (fst spec, fst spec) = Ok resized
                      /\ im_mode resized = "RGBA"
                      /\ im_size resized = (fst spec, fst spec)
                      /\ composite (I := Toy.imaging) resized (fst spec) = Ok flat
                      /\ png_encode (Imaging := Toy.imaging) flat = Ok data
                      /\ fs_files (w_fs (snd (generate_app_icons (I := Toy.imaging)
                                                Toy.world0)))
                           !! (OsPath.join dest_dir (snd spec)) = Some data
                      /\ im_mode flat = "RGB"
                      /\ PIL.getbands (im_mode flat) = ["R"; "G"; "B"]
                      /\ Forall (Forall (fun px : pixel => length px = 3)) (im_rows flat)
                      /\ (forall x y px,
                            x < fst spec -> y < fst spec ->
                            pixel_at resized x y = Some px ->
                            nth 3 px 0%Z = 0%Z ->
                            pixel_at flat x y = Some white)
                      /\ (forall x y r g b,
                            x < fst spec -> y < fst spec ->
                            pixel_at resized x y = Some [r; g; b; 255%Z] ->
                            pixel_at flat x y = Some [r; g; b]))
            icon_sizes.
Proof.
  split; [exact world0_succeeds|].
  exact (icons_are_opaque (I := Toy.imaging) (L := toy_laws) Toy.world0 world0_succeeds).
Defined.

(** ** The claims about failures *)

Lemma os_makedirs_fs p w :
  is_ok (fst (os_makedirs p w)) = is_ok (fst (Fs.makedirs p (w_fs w)))
  /\ w_fs (snd (os_makedirs p w)) = snd (Fs.makedirs p (w_fs w))
  /\ w_stdout (snd (os_makedirs p w)) = w_stdout w.
Proof.
  unfold os_makedirs. destruct (Fs.makedirs p (w_fs w)) as [[fs'|e] fs1];
    repeat split; reflexivity.
Qed.

Section Failures.
Context {I : Imaging}.



End Failures.






(** What the run does there: the exception leaves the function. *)
Lemma blocked_run_raises :
  fst (generate_app_icons (I := Toy.imaging) Toy.world_blocked)
  = Raise (Exception "[Errno 13] Permission denied: '/Users'")
  /\ w_stdout (snd (generate_app_icons (I := Toy.imaging) Toy.world_blocked)) = [].
Proof. split; vm_compute; reflexivity. Qed.

(** ** The manifest and the table *)

(** C9. Every file name of the sixteen manifest entries is the file name
    of an entry of the icon table: the manifest names no file that the
    loop does not write. *)
Theorem manifest_files_are_generated :
  length (manifest_filenames contents_json) = 16
  /\ Forall (fun filename => filename ∈ List.map snd icon_sizes)
       (manifest_filenames contents_json)
  /\ Forall (fun filename => exists size, (size, filename) ∈ icon_sizes)
       (manifest_filenames contents_json).
Proof.
  split; [reflexivity|].
  assert (H : Forall (fun filename => filename ∈ List.map snd icon_sizes)
                (manifest_filenames contents_json)).
  { apply (bool_decide_unpack _). vm_compute. exact Logic.I. }
  split; [exact H|].
  eapply Forall_impl; [exact H|]. intros filename Hin.
  apply list_elem_of_fmap in Hin as ([size f] & -> & Hin). exists size. exact Hin.
Qed.

(** The sixteen entries name twelve files: [Icon-29.png] is written by the
    loop and named by no entry. *)
Lemma manifest_distinct_files :
  length (remove_dups (manifest_filenames contents_json)) = 12
  /\ ("Icon-29.png" ∉ manifest_filenames contents_json)
  /\ "Icon-29.png" ∈ List.map snd icon_sizes.
Proof.
  split; [vm_compute; reflexivity|].
  split; apply (bool_decide_unpack _); vm_compute; exact Logic.I.
Qed.

(** * More of the script *)

(** ** What the script prints *)

Section Trace.
Context {I : Imaging}.

Lemma generate_icon_trace source_img spec w :
  generate_icon source_img spec w
  = match render source_img (fst spec) with
    | Ok data =>
        match Fs.write (icon_path (snd spec)) data (w_fs w) with
        | Ok fs' =>
            (Ok tt, mkWorld fs' ((w_stdout w ++ [generating_line spec])
                                 ++ [saved_line (snd spec)]))
        | Raise e => (Raise e, mkWorld (w_fs w) (w_stdout w ++ [generating_line spec]))
        end
    | Raise e => (Raise e, mkWorld (w_fs w) (w_stdout w ++ [generating_line spec]))
    end.
Proof.
  destruct spec as [size filename].
  unfold render, generate_icon, Image_save, write_file, bind, print, lift, icon_path,
    generating_line, saved_line.
  cbn [w_fs w_stdout fst snd].
  destruct (resize_lanczos source_img (size, size)) as [resized|e]; [|reflexivity].
  destruct (flatten resized size) as [flat|e]; [|reflexivity].
  destruct (png_encode flat) as [data|e]; [|reflexivity].
  destruct (Fs.write (OsPath.join dest_dir filename) data (w_fs w)) as [fs'|e]; reflexivity.
Qed.

Lemma pending_line_cons spec table k :
  pending_line (spec :: table) (S k) = pending_line table k.
Proof. reflexivity. Qed.

(** The loop prints the two lines of every entry it saves and, if it
    stops at an entry, the first line of that entry; the entries saved are
    the ones written. *)
Lemma for_each_trace source_img table : forall w,
  exists k ws,
    k <= length table
    /\ written source_img (firstn k table) ws
    /\ extends (w_fs w) (w_fs (snd (for_each table (generate_icon source_img) w))) ws
    /\ (fst (for_each table (generate_icon source_img) w) = Ok tt <-> k = length table)
    /\ w_stdout (snd (for_each table (generate_icon source_img) w))
       = (w_stdout w ++ flat_map icon_lines (firstn k table) ++ pending_line table k)%list.
Proof.
  induction table as [|spec rest IH]; intros w.
  - exists 0, []. cbn. split; [lia|]. split; [constructor|].
    split; [apply extends_refl|]. split; [split; reflexivity|].
    rewrite app_nil_r. reflexivity.
  - cbn [for_each]. unfold bind. rewrite generate_icon_trace.
    assert (Hstop : forall (e : exn) out,
      out = (w_stdout w ++ [generating_line spec])%list ->
      exists k ws,
        k <= length (spec :: rest)
        /\ written source_img (firstn k (spec :: rest)) ws
        /\ extends (w_fs w) (w_fs w) ws
        /\ (@Raise unit e = Ok tt <-> k = length (spec :: rest))
        /\ out = (w_stdout w ++ flat_map icon_lines (firstn k (spec :: rest))
                  ++ pending_line (spec :: rest) k)%list).
    { intros e out ->. exists 0, []. cbn [length firstn flat_map]. split; [lia|].
      split; [constructor|]. split; [apply extends_refl|].
      split; [split; [discriminate|lia]|]. reflexivity. }
    destruct (render source_img (fst spec)) as [data|e] eqn:Hrender;
      [|cbn [fst snd w_fs w_stdout]; apply Hstop; reflexivity].
    destruct (Fs.write (icon_path (snd spec)) data (w_fs w)) as [fs'|e] eqn:Hw;
      [|cbn [fst snd w_fs w_stdout]; apply Hstop; reflexivity].
    apply write_extends in Hw.
    match goal with
    | |- context [for_each rest _ ?w0] =>
        destruct (IH w0) as (k & ws & Hk & Hws & He & Hok & Hout)
    end.
    cbn [w_fs w_stdout] in He, Hout.
    exists (S k), ((icon_path (snd spec), data) :: ws). cbn [length firstn flat_map].
    split; [lia|]. split; [constructor; [split; [reflexivity|exact Hrender]|exact Hws]|].
    split; [apply (extends_trans _ _ _ _ _ Hw He)|].
    split; [rewrite Hok; lia|].
    rewrite Hout, pending_line_cons. unfold icon_lines.
    rewrite <- !app_assoc. reflexivity.
Qed.

Lemma pending_line_end : pending_line icon_sizes 13 = [].
Proof. reflexivity. Qed.

(** The body of the [try], with what it prints. *)
Lemma generate_body_trace w :
  match load_fs (w_fs w) with
  | Raise e => generate_body w = (Raise e, w)
  | Ok source_img =>
      exists k ws,
        k <= 13
        /\ written source_img (firstn k icon_sizes) ws
        /\ (is_ok (fst (generate_body w)) = true -> k = 13)
        /\ extends (w_fs w) (w_fs (snd (generate_body w)))
             (ws ++ if is_ok (fst (generate_body w))
                    then [(contents_path, contents_bytes)] else [])
        /\ w_stdout (snd (generate_body w))
           = (w_stdout w ++ loaded_line source_img
                :: flat_map icon_lines (firstn k icon_sizes)
                ++ if is_ok (fst (generate_body w))
                   then [manifest_line; complete_line]
                   else pending_line icon_sizes k)%list
  end.
Proof.
  unfold generate_body, load_fs, Image_open, read_file, bind, lift, print.
  cbv beta iota.
  destruct (Fs.read source_path (w_fs w)) as [bytes|e]; [|reflexivity].
  destruct (decode bytes) as [img|e]; [|reflexivity].
  destruct (convert img "RGBA") as [source_img|e]; [|reflexivity].
  match goal with
  | |- context [for_each icon_sizes (generate_icon source_img) ?w0] =>
      destruct (for_each_trace source_img icon_sizes w0) as (k & ws & Hk & Hws & He & Hok & Hout);
      destruct (for_each icon_sizes (generate_icon source_img) w0) as [[[]|e] w1]
  end; cbn [fst snd w_fs w_stdout] in He, Hok, Hout;
    change (length icon_sizes) with 13 in Hk, Hok; exists k, ws.
  - assert (k = 13) by (apply Hok; reflexivity). subst k.
    unfold write_file.
    destruct (Fs.write contents_path (list_byte_of_string contents_text) (w_fs w1))
      as [fs2|e] eqn:Hw; cbn [fst snd is_ok w_fs w_stdout].
    + apply write_extends in Hw.
      split; [lia|]. split; [exact Hws|]. split; [reflexivity|].
      split; [exact (extends_trans _ _ _ _ _ He Hw)|].
      rewrite Hout, pending_line_end, app_nil_r. unfold loaded_line, manifest_line,
        complete_line. rewrite <- !app_assoc. reflexivity.
    + split; [lia|]. split; [exact Hws|]. split; [discriminate|].
      split; [rewrite app_nil_r; exact He|].
      rewrite Hout. unfold loaded_line. rewrite <- !app_assoc. reflexivity.
  - cbn [fst snd is_ok].
    split; [exact Hk|]. split; [exact Hws|]. split; [discriminate|].
    split; [rewrite app_nil_r; exact He|].
    rewrite Hout. unfold loaded_line. rewrite <- !app_assoc. reflexivity.
Qed.

End Trace.

Section RunTrace.
Context {I : Imaging}.

Lemma generate_app_icons_cases w :
  generate_app_icons w
  = match os_makedirs dest_dir w with
    | (Raise e, w1) => (Raise e, w1)
    | (Ok _, _) =>
        match generate_body (try_entry w) with
        | (Ok _, w3) => (Ok true, w3)
        | (Raise e, w3) => (Ok false, mkWorld (w_fs w3) (w_stdout w3 ++ [error_line e]))
        end
    end.
Proof.
  unfold generate_app_icons, try_entry, try_except, bind, error_line.
  destruct (os_makedirs dest_dir w) as [[[]|e] w1]; [|reflexivity].
  cbn [snd print]. cbv beta iota.
  match goal with
  | |- context [generate_body ?w0] => destruct (generate_body w0) as [[[]|e] w3]
  end; reflexivity.
Qed.

Lemma try_entry_fs w : w_fs (try_entry w) = snd (Fs.makedirs dest_dir (w_fs w)).
Proof.
  unfold try_entry, print, os_makedirs.
  destruct (Fs.makedirs dest_dir (w_fs w)) as [[fs'|e] fs1]; reflexivity.
Qed.

Lemma try_entry_stdout w : w_stdout (try_entry w) = (w_stdout w ++ [loading_line])%list.
Proof.
  unfold try_entry, print, os_makedirs, loading_line.
  destruct (Fs.makedirs dest_dir (w_fs w)) as [[fs'|e] fs1]; reflexivity.
Qed.


End RunTrace.



(** X1. The output of a successful run: thirty lines after what was
    there, the loading line, the size of the source as loaded, for each
    entry of the table in order its [Generating] and its [Saved] line,
    and the two closing lines. *)
Theorem successful_run_prints {I : Imaging} (w : World) :
  fst (generate_app_icons w) = Ok true ->
  exists source_img,
    loop_reached (w_fs w) source_img
    /\ w_stdout (snd (generate_app_icons w))
       = (w_stdout w ++ [loading_line; loaded_line source_img]
            ++ flat_map icon_lines icon_sizes ++ [manifest_line; complete_line])%list
    /\ length (w_stdout (snd (generate_app_icons w))) = length (w_stdout w) + 30.
Proof.
  intros Hok. rewrite generate_app_icons_cases in Hok |- *.
  pose proof (os_makedirs_fs dest_dir w) as (Hisok & _ & _).
  pose proof (generate_body_trace (try_entry w)) as Hbody.
  pose proof (try_entry_stdout w) as Hout0.
  pose proof (try_entry_fs w) as Hfs0.
  destruct (os_makedirs dest_dir w) as [[[]|e0] w1]; [|discriminate Hok].
  cbn [fst is_ok] in Hisok.
  set (w2 := try_entry w) in *. clearbody w2.
  destruct (load_fs (w_fs w2)) as [source_img|e] eqn:Hload.
  - destruct Hbody as (k & ws & Hk & Hws & H13 & He & Hout).
    destruct (generate_body w2) as [[[]|e] w3];
      cbn [fst snd is_ok] in *; [|discriminate Hok].
    specialize (H13 eq_refl). subst k.
    change (firstn 13 icon_sizes) with icon_sizes in Hout.
    exists source_img. split; [split; [symmetry; exact Hisok|rewrite <- Hfs0; exact Hload]|].
    assert (Hlines : w_stdout w3
                     = (w_stdout w ++ [loading_line; loaded_line source_img]
                          ++ flat_map icon_lines icon_sizes
                          ++ [manifest_line; complete_line])%list).
    { rewrite Hout, Hout0, <- app_assoc. reflexivity. }
    split; [exact Hlines|]. rewrite Hlines, !length_app. reflexivity.
  - rewrite Hbody in Hok. discriminate Hok.
Qed.

Lemma successful_run_prints_witness :
  fst (generate_app_icons (I := Toy.imaging) Toy.world0) = Ok true
  /\ exists source_img,
       loop_reached (I := Toy.imaging) (w_fs Toy.world0) source_img
       /\ w_stdout (snd (generate_app_icons (I := Toy.imaging) Toy.world0))
          = (w_stdout Toy.world0 ++ [loading_line; loaded_line source_img]
               ++ flat_map icon_lines icon_sizes ++ [manifest_line; complete_line])%list
       /\ length (w_stdout (snd (generate_app_icons (I := Toy.imaging) Toy.world0)))
          = length (w_stdout Toy.world0) + 30.
Proof.
  split; [exact world0_succeeds|].
  exact (successful_run_prints (I := Toy.imaging) Toy.world0 world0_succeeds).
Defined.

(** ** The entry point *)


(** ** What a run keeps *)

Lemma apply_writes_keeps ws files p :
  is_Some (files !! p) -> is_Some (apply_writes ws files !! p).
Proof.
  intros H. rewrite apply_writes_lookup. destruct (last_write p ws); [eauto|exact H].
Qed.

Section Keeps.
Context {I : Imaging}.

Lemma run_fs_dirs fs :
  fs_dirs fs ⊆ fs_dirs (snd (run_fs fs))
  /\ fs_dirs (snd (run_fs fs))
     ⊆ list_to_set (OsPath.parents dest_dir ++ [dest_dir])%list ∪ fs_dirs fs.
Proof.
  pose proof (run_fs_master fs) as H.
  destruct (Fs.makedirs dest_dir fs) as [[fs1'|e] fs1] eqn:Hmk;
    rewrite makedirs_unfold in Hmk;
    apply mkdir_all_spec in Hmk as (_ & _ & _ & _ & Hsub & Hsup & _).
  - destruct H as (ok & ws & _ & _ & [Hd _ _ _ _]). rewrite Hd. split; assumption.
  - rewrite H. split; assumption.
Qed.

End Keeps.

(** X4. A run removes nothing: every file that was there is still there,
    the source image has the bytes it had, every directory that was there
    is still there, the only directories that can be new are the
    destination directory and the directories above it, and what may be
    read and written is unchanged. *)
Theorem run_keeps_what_was_there {I : Imaging} (w : World) :
  let after := w_fs (snd (generate_app_icons w)) in
  dom (fs_files (w_fs w)) ⊆ dom (fs_files after)
  /\ fs_files after !! source_path = fs_files (w_fs w) !! source_path
  /\ fs_dirs (w_fs w) ⊆ fs_dirs after
  /\ fs_dirs after
     ⊆ list_to_set (OsPath.parents dest_dir ++ [dest_dir])%list ∪ fs_dirs (w_fs w)
  /\ fs_noread after = fs_noread (w_fs w)
  /\ fs_nowrite after = fs_nowrite (w_fs w).
Proof.
  intros after. subst after. destruct (generate_app_icons_fs w) as [_ Hfs]. rewrite Hfs.
  destruct (run_fs_effect (w_fs w)) as (k & ws & _ & _ & _ & Hf & _ & Hr & Hw & _).
  destruct (run_fs_dirs (w_fs w)) as [Hsub Hsup].
  split; [|split; [apply run_fs_frame, source_not_output|]].
  - intros p Hp. apply elem_of_dom in Hp. apply elem_of_dom.
    rewrite Hf. apply apply_writes_keeps, Hp.
  - split; [exact Hsub|]. split; [exact Hsup|]. split; assumption.
Qed.

(** X10. A run writes only into the destination directory, and writes no
    file twice: the files it writes all lie directly in [dest_dir], they
    are pairwise different, and there are none when [os.makedirs]
    failed. *)
Theorem run_writes_only_in_dest_dir {I : Imaging} (w : World) :
  exists ws,
    fs_journal (w_fs (snd (generate_app_icons w))) = (fs_journal (w_fs w) ++ ws)%list
    /\ Forall (fun pd => OsPath.dirname (fst pd) = dest_dir) ws
    /\ NoDup (List.map fst ws)
    /\ (is_ok (fst (os_makedirs dest_dir w)) = false -> ws = []).
Proof.
  destruct (generate_app_icons_fs w) as [_ Hfs]. rewrite Hfs.
  destruct (run_fs_effect (w_fs w)) as (k & ws & _ & Hpaths & Hj & _).
  exists ws. split; [exact Hj|].
  assert (Hall : Forall (fun p => OsPath.dirname p = dest_dir) output_paths)
    by (apply (bool_decide_unpack _); vm_compute; exact Logic.I).
  split; [|split].
  - apply Forall_forall. intros pd Hpd.
    apply (proj1 (Forall_forall _ _) Hall).
    apply (subseteq_take k output_paths). rewrite <- Hpaths.
    apply list_elem_of_fmap. exists pd. split; [reflexivity|exact Hpd].
  - rewrite Hpaths. eapply sublist_NoDup; [apply output_paths_NoDup|apply sublist_take].
  - intros Hfail. destruct (os_makedirs_fs dest_dir w) as (Hisok & _ & _).
    rewrite Hisok in Hfail. pose proof (run_fs_master (w_fs w)) as Hrun.
    destruct (Fs.makedirs dest_dir (w_fs w)) as [[fs1'|e] fs1] eqn:Hmk;
      cbn [fst is_ok] in Hfail; [discriminate|].
    apply makedirs_spec in Hmk as (_ & _ & _ & Hj1 & _).
    rewrite Hrun in Hj. cbn [snd] in Hj. rewrite Hj1 in Hj.
    rewrite <- (app_nil_r (fs_journal (w_fs w))) in Hj at 1.
    apply app_inv_head in Hj. symmetry. exact Hj.
Qed.

(** ** Old files in the destination *)

Lemma world_stale_succeeds :
  fst (generate_app_icons (I := Toy.imaging) Toy.world_stale) = Ok true.
Proof. vm_compute. reflexivity. Qed.

Lemma world0_loop_reached : loop_reached (I := Toy.imaging) (w_fs Toy.world0) Toy.source_img0.
Proof. split; vm_compute; reflexivity. Qed.

Lemma world_stale_loop_reached :
  loop_reached (I := Toy.imaging) (w_fs Toy.world_stale) Toy.source_img0.
Proof. split; vm_compute; reflexivity. Qed.

(** X5. Output files are replaced, not merged: two successful runs that
    loaded the same source image leave the same bytes in each of the
    fourteen output files, whatever the destination held before either
    run, a stale manifest or stale icons included. *)
Theorem outputs_replace_old_files {I : Imaging} (w1 w2 : World) (source_img : Image) :
  fst (generate_app_icons w1) = Ok true ->
  fst (generate_app_icons w2) = Ok true ->
  loop_reached (w_fs w1) source_img ->
  loop_reached (w_fs w2) source_img ->
  Forall (fun p => fs_files (w_fs (snd (generate_app_icons w1))) !! p
                   = fs_files (w_fs (snd (generate_app_icons w2))) !! p) output_paths.
Proof.
  intros Hok1 Hok2 Hl1 Hl2.
  destruct (generate_app_icons_fs w1) as [Hr1 Hfs1].
  destruct (generate_app_icons_fs w2) as [Hr2 Hfs2].
  rewrite Hr1 in Hok1. rewrite Hr2 in Hok2. rewrite Hfs1, Hfs2.
  exact (same_source_same_outputs _ _ source_img Hok1 Hok2 Hl1 Hl2).
Qed.

Lemma outputs_replace_old_files_witness :
  fst (generate_app_icons (I := Toy.imaging) Toy.world0) = Ok true
  /\ fst (generate_app_icons (I := Toy.imaging) Toy.world_stale) = Ok true
  /\ fs_files (w_fs Toy.world_stale) !! contents_path = Some (list_byte_of_string "{}")
  /\ fs_files (w_fs Toy.world0) !! contents_path = None
  /\ Forall (fun p =>
               fs_files (w_fs (snd (generate_app_icons (I := Toy.imaging) Toy.world0))) !! p
               = fs_files (w_fs (snd (generate_app_icons (I := Toy.imaging)
                                        Toy.world_stale))) !! p) output_paths.
Proof.
  split; [exact world0_succeeds|]. split; [exact world_stale_succeeds|].
  split; [vm_compute; reflexivity|]. split; [vm_compute; reflexivity|].
  exact (outputs_replace_old_files (I := Toy.imaging) Toy.world0 Toy.world_stale
           Toy.source_img0 world0_succeeds world_stale_succeeds
           world0_loop_reached world_stale_loop_reached).
Defined.

(** ** The manifest against the icons *)

Lemma manifest_entries_in_table :
  Forall (fun e => entry_in_table e = true) (manifest_entries contents_json).
Proof. repeat constructor. Qed.

Lemma entry_in_table_spec e :
  entry_in_table e = true ->
  exists f n, entry_filename e = Some f /\ entry_pixels e = Some n /\ (n, f) ∈ icon_sizes.
Proof.
  unfold entry_in_table.
  destruct (entry_filename e) as [f|]; [|discriminate].
  destruct (entry_pixels e) as [n|]; [|discriminate].
  intros H. apply existsb_exists in H as ([size filename] & Hin & Heq).
  cbn [fst snd] in Heq. apply andb_true_iff in Heq as [Hn Hf].
  apply Nat.eqb_eq in Hn. apply String.eqb_eq in Hf. subst size filename.
  exists f, n. split; [reflexivity|]. split; [reflexivity|].
  apply list_elem_of_In. exact Hin.
Qed.

Section IconFiles.
Context {I : Imaging} {L : ImagingLaws I}.

Lemma success_icon_sizes w :
  fst (generate_app_icons w) = Ok true ->
  Forall (fun spec : nat * string =>
            exists flat data,
              fs_files (w_fs (snd (generate_app_icons w))) !! icon_path (snd spec)
              = Some data
              /\ png_encode flat = Ok data
              /\ im_size flat = (fst spec, fst spec)) icon_sizes.
Proof.
  intros Hok. destruct (generate_app_icons_fs w) as [Hr Hfs].
  rewrite Hr in Hok. rewrite Hfs.
  destruct (run_fs_success _ Hok) as (source_img & [_ Hload] & Hicons & _).
  apply loaded_RGBA in Hload.
  eapply Forall_impl; [exact Hicons|].
  intros [size filename] (data & Hrender & Hfile). cbn [fst snd] in *.
  destruct (render_spec _ _ _ Hload Hrender)
    as (resized & flat & _ & Hmode & _ & Hflat & Hdata).
  destruct (composite_shape _ _ _ Hmode Hflat) as (_ & Hsize & _).
  exists flat, data. auto.
Qed.

End IconFiles.

(** X6. The manifest tells the truth about the icons: after a successful
    run, for each of the sixteen entries the file it names is in the
    destination directory and is the PNG encoding of a square image whose
    edge length in pixels is the size in points that the entry declares
    times its scale (167 for 83.5 points at 2x). *)
Theorem manifest_entries_match_icon_files {I : Imaging} {L : ImagingLaws I} (w : World) :
  fst (generate_app_icons w) = Ok true ->
  length (manifest_entries contents_json) = 16
  /\ Forall (fun e =>
               exists filename pixels flat data,
                 entry_filename e = Some filename
                 /\ entry_pixels e = Some pixels
                 /\ fs_files (w_fs (snd (generate_app_icons w)))
                      !! (OsPath.join dest_dir filename) = Some data
                 /\ png_encode flat = Ok data
                 /\ im_size flat = (pixels, pixels))
       (manifest_entries contents_json).
Proof.
  intros Hok. split; [reflexivity|].
  pose proof (success_icon_sizes w Hok) as Hicons.
  eapply Forall_impl; [exact manifest_entries_in_table|].
  intros e (f & n & Hf & Hn & Hin)%entry_in_table_spec.
  pose proof (proj1 (Forall_forall _ _) Hicons (n, f) Hin) as (flat & data & Hfile & Hdata & Hsize).
  exists f, n, flat, data. auto.
Qed.

Lemma manifest_entries_match_icon_files_witness :
  fst (generate_app_icons (I := Toy.imaging) Toy.world0) = Ok true
  /\ Forall (fun e =>
               exists filename pixels flat data,
                 entry_filename e = Some filename
                 /\ entry_pixels e = Some pixels
                 /\ fs_files (w_fs (snd (generate_app_icons (I := Toy.imaging) Toy.world0)))
                      !! (OsPath.join dest_dir filename) = Some data
                 /\ png_encode (Imaging := Toy.imaging) flat = Ok data
                 /\ im_size flat = (pixels, pixels))
       (manifest_entries contents_json).
Proof.
  split; [exact world0_succeeds|].
  exact (proj2 (manifest_entries_match_icon_files (I := Toy.imaging) (L := toy_laws)
                  Toy.world0 world0_succeeds)).
Defined.

Example entry_pixels_of_half_points :
  entry_pixels (image_entry "Icon-167.png" "ipad" "2x" "83.5x83.5") = Some 167.
Proof. reflexivity. Qed.

Example entry_pixels_not_whole :
  entry_pixels (image_entry "Icon-x.png" "ipad" "1x" "83.5x83.5") = None.
Proof. reflexivity. Qed.

(** ** Flattening *)

Section FlattenTotal.
Context {I : Imaging}.

Lemma composite_pixel_outside resized size flat x y :
  im_mode resized = "RGBA" ->
  composite resized size = Ok flat ->
  x < size -> y < size ->
  pixel_at resized x y = None ->
  pixel_at flat x y = Some white.
Proof.
  intros Hmode. rewrite (composite_RGBA _ _ Hmode). intros [= <-] Hx Hy.
  unfold pixel_at. cbn [im_rows].
  rewrite nth_error_overlay, nth_error_repeat by exact Hy.
  rewrite nth_error_combine_map.
  destruct (nth_error (im_rows resized) y) as [row|] eqn:Hrow.
  - intros Hpx. unfold PIL.paste_row. cbn [fst snd].
    rewrite nth_error_overlay, nth_error_repeat by exact Hx.
    rewrite nth_error_combine_map, Hpx. reflexivity.
  - intros _. apply nth_error_repeat. exact Hx.
Qed.

End FlattenTotal.

(** X7. Lines 50-54 cannot raise, whatever the resize returned: an image
    whose mode is not RGBA is passed on as it is, and an RGBA image, even
    one of the wrong size, becomes an RGB image of exactly the size asked
    for, with that many rows of that many pixels, white wherever the
    resized image has no pixel. *)
Theorem flatten_never_raises {I : Imaging} (resized : Image) (size : nat) :
  exists flat,
    flatten resized size = Ok flat
    /\ (im_mode resized <> "RGBA" -> flat = resized)
    /\ (im_mode resized = "RGBA" ->
        im_mode flat = "RGB"
        /\ im_size flat = (size, size)
        /\ length (im_rows flat) = size
        /\ Forall (fun row => length row = size) (im_rows flat)
        /\ forall x y, x < size -> y < size ->
                       pixel_at resized x y = None -> pixel_at flat x y = Some white).
Proof.
  unfold flatten. destruct (String.eqb_spec (im_mode resized) "RGBA") as [Hmode|Hmode].
  - pose proof (composite_RGBA resized size Hmode) as Hflat.
    eexists. split; [exact Hflat|]. split; [intros Hne; destruct (Hne Hmode)|].
    intros _. destruct (composite_shape _ _ _ Hmode Hflat) as (Hrgb & Hsize & Hrows & Hrow & _).
    do 4 (split; [assumption|]).
    intros x y Hx Hy Hnone. exact (composite_pixel_outside _ _ _ _ _ Hmode Hflat Hx Hy Hnone).
  - exists resized. split; [reflexivity|]. split; [reflexivity|].
    intros Heq. destruct (Hmode Heq).
Qed.

(** ** The destination directory *)




(** X9. A regular file where the destination directory should be stops
    the run before it starts: with the directories above in place,
    [os.makedirs] raises [File exists] outside the [try], the exception
    leaves the function, and the world is as it was, nothing printed and
    nothing written. *)
Theorem file_in_the_way_raises {I : Imaging} (w : World) (data : list byte) :
  fs_files (w_fs w) !! dest_dir = Some data ->
  dest_dir ∉ fs_dirs (w_fs w) ->
  Forall (fun p => p ∈ fs_dirs (w_fs w)) (OsPath.parents dest_dir) ->
  generate_app_icons w = (Raise (Fs.errno "17" "File exists" dest_dir), w).
Proof.
  intros Hfile Hnodir Hdirs.
  assert (Hmk : Fs.makedirs dest_dir (w_fs w)
                = (Raise (Fs.errno "17" "File exists" dest_dir), w_fs w)).
  { rewrite makedirs_unfold. generalize (OsPath.parents dest_dir) Hdirs.
    intros ps Hps. induction Hps as [|p ps Hp _ IH]; cbn [app Fs.mkdir_all].
    - unfold Fs.mkdir_exist_ok, Fs.is_dir, Fs.is_file.
      rewrite bool_decide_eq_false_2 by exact Hnodir.
      rewrite bool_decide_eq_true_2 by (rewrite Hfile; eauto). reflexivity.
    - rewrite mkdir_exist_ok_present by exact Hp. exact IH. }
  rewrite generate_app_icons_cases. unfold os_makedirs. rewrite Hmk.
  destruct w; reflexivity.
Qed.

Lemma file_in_the_way_raises_witness :
  fs_files (w_fs Toy.world_occupied) !! dest_dir
  = Some (list_byte_of_string "not a directory")
  /\ (dest_dir ∉ fs_dirs (w_fs Toy.world_occupied))
  /\ Forall (fun p => p ∈ fs_dirs (w_fs Toy.world_occupied)) (OsPath.parents dest_dir)
  /\ generate_app_icons (I := Toy.imaging) Toy.world_occupied
     = (Raise (Fs.errno "17" "File exists" dest_dir), Toy.world_occupied).
Proof.
  assert (Hfile : fs_files (w_fs Toy.world_occupied) !! dest_dir
                  = Some (list_byte_of_string "not a directory"))
    by (vm_compute; reflexivity).
  assert (Hnodir : dest_dir ∉ fs_dirs (w_fs Toy.world_occupied))
    by (apply (bool_decide_unpack _); vm_compute; exact Logic.I).
  assert (Hdirs : Forall (fun p => p ∈ fs_dirs (w_fs Toy.world_occupied))
                    (OsPath.parents dest_dir))
    by (apply (bool_decide_unpack _); vm_compute; exact Logic.I).
  split; [exact Hfile|]. split; [exact Hnodir|]. split; [exact Hdirs|].
  exact (file_in_the_way_raises (I := Toy.imaging) Toy.world_occupied _ Hfile Hnodir Hdirs).
Defined.
